(** * Plasso flexkit client: a shallow embedding and its properties

    The repository is a Go client for the Plasso HTTP and GraphQL API.  It
    holds three source files:

    - [flexkit/flexkit.go] (package [flexkit]), embedded in [Module flexkit];
    - an earlier revision of the same package, embedded in [Module variant];
    - [members.go] (package [plasso]), embedded in [Module plasso].

    The Go standard library ([encoding/json], [net/http], [fmt], [strings]) is
    not part of the repository.  Its behaviour is modelled in [Module golib]:
    the encoder is modelled structurally (which fields of a struct reach the
    JSON document), the decoder and the remote server are parameters. *)

From Stdlib Require Import ZArith List Ascii.
From stdpp Require Import base gmap strings list sorting pretty.

Set Warnings "-register-all,-notation-for-abbreviation,-deprecated".
Open Scope Z_scope.

(** ** The Go library, as far as the package uses it *)

Module golib.

(** The double quote character, for Go literals that contain one. *)
Definition dq : string := String "034"%char EmptyString.

(** [error]: an interface value; only its message is observable here.
    [nil] is [None] in [option error]. *)
Record error : Type := errors_New { Error : string }.

(** Addresses of heap cells.  A pointer is an [option loc]; [None] is nil. *)
Notation loc := positive.

(** *** encoding/json: documents *)

(** A JSON document.  Strings hold the Go string that was encoded; escaping
    and the replacement of invalid UTF-8 happen when the document is written
    out as bytes and are not modelled. *)
Inductive json : Type :=
| JNull
| JString (s : string)
| JNumber (n : Z)
| JArray (xs : list json)
| JObject (members : list (string * json)).

(** Value of the first member called [k] in a JSON object. *)
Fixpoint assoc (k : string) (kvs : list (string * json)) : option json :=
  match kvs with
  | [] => None
  | (k', v) :: rest => if bool_decide (k = k') then Some v else assoc k rest
  end.

Definition field_of (k : string) (j : json) : option json :=
  match j with
  | JObject kvs => assoc k kvs
  | _ => None
  end.

(** *** encoding/json: what reflection sees of a Go value

    [value] is the part of Go's value universe that the package hands to
    [json.Marshal]: strings, ints, slices, [map[string]string], structs, and
    one kind the encoder rejects (channels, functions, complex numbers).
    A struct field carries its Go name and the name in its [json:"..."] tag. *)
Inductive value : Type :=
| VString (s : string)
| VInt (n : Z)
| VSlice (xs : option (list value))           (* [None]: nil slice *)
| VMap (m : option (gmap string string))      (* [None]: nil map *)
| VStruct (fields : list (string * string * value))
| VUnsupported (kind : string).

(** Interface of the types that are passed as [interface{}]. *)
Class Reflect (T : Type) := reflect : T -> value.
Global Hint Mode Reflect ! : typeclass_instances.

Global Instance Reflect_value : Reflect value := fun v => v.
Global Instance Reflect_string : Reflect string := VString.
Global Instance Reflect_int : Reflect Z := VInt.
Global Instance Reflect_map : Reflect (gmap string string) :=
  fun m => VMap (Some m).
Global Instance Reflect_slice {T} `{Reflect T} : Reflect (option (list T)) :=
  fun xs => VSlice (option_map (List.map reflect) xs).

(** A Go identifier is exported when it starts with an upper case letter; the
    identifiers of this package are ASCII. *)
Definition isExported (name : string) : bool :=
  match name with
  | String c _ => (65 <=? Z.of_N (Ascii.N_of_ascii c)) && (Z.of_N (Ascii.N_of_ascii c) <=? 90)
  | EmptyString => false
  end.

(** Keys of a map are written in increasing order. *)
Definition sortedKeys (m : gmap string string) : list (string * string) :=
  merge_sort (fun a b => String.le a.1 b.1) (map_to_list m).

(** The first error of a run of results, or all their values. *)
Fixpoint collect {A} (rs : list (error + A)) : error + list A :=
  match rs with
  | [] => inr []
  | inl e :: _ => inl e
  | inr a :: rest =>
      match collect rest with
      | inl e => inl e
      | inr l => inr (a :: l)
      end
  end.

(** The same for the fields of a struct, where [None] is a skipped field. *)
Fixpoint collectFields (rs : list (option (string * (error + json))))
  : error + list (string * json) :=
  match rs with
  | [] => inr []
  | None :: rest => collectFields rest
  | Some (_, inl e) :: _ => inl e
  | Some (tag, inr j) :: rest =>
      match collectFields rest with
      | inl e => inl e
      | inr l => inr ((tag, j) :: l)
      end
  end.

(** [json.Marshal].  Unexported struct fields are skipped, whatever their
    tag says; a nil slice or map becomes [null]; unsupported kinds are an
    error ([json.UnsupportedTypeError]).  No struct of the package has
    embedded fields, [omitempty], or two fields with one JSON name, so those
    rules are left out. *)
Fixpoint Marshal (v : value) : error + json :=
  match v with
  | VString s => inr (JString s)
  | VInt n => inr (JNumber n)
  | VSlice None => inr JNull
  | VSlice (Some xs) =>
      match collect (List.map Marshal xs) with
      | inl e => inl e
      | inr js => inr (JArray js)
      end
  | VMap None => inr JNull
  | VMap (Some m) => inr (JObject (List.map (fun kv => (kv.1, JString kv.2)) (sortedKeys m)))
  | VStruct fields =>
      match
        collectFields
          (List.map (fun f => let '(name, tag, x) := f in
                              if isExported name then Some (tag, Marshal x) else None)
                    fields)
      with
      | inl e => inl e
      | inr js => inr (JObject js)
      end
  | VUnsupported kind => inl (errors_New ("json: unsupported type: " +:+ kind))
  end.

Definition json_Marshal {T} `{Reflect T} (x : T) : error + json :=
  Marshal (reflect x).

(** [json.Unmarshal(data, &r)] for a target of type [T]: the decoded struct or
    an error.  The decoder is a parameter of the development. *)
Class Unmarshal (T : Type) := json_Unmarshal : string -> error + T.
Global Hint Mode Unmarshal ! : typeclass_instances.

(** *** fmt, strings, time *)

Definition nl : string := String "010"%char EmptyString.
Definition tab : string := String "009"%char EmptyString.

(** Does [s] start with [p]? *)
Fixpoint HasPrefix (s p : string) : bool :=
  match p, s with
  | EmptyString, _ => true
  | String a p', String b s' => bool_decide (a = b) && HasPrefix s' p'
  | String _ _, EmptyString => false
  end.

Fixpoint dropChars (n : nat) (s : string) : string :=
  match n, s with
  | O, _ => s
  | S n', String _ s' => dropChars n' s'
  | S _, EmptyString => EmptyString
  end.

(** [strings.Replace(s, old, new, 1)]: the first occurrence of [old] in [s]
    is replaced by [new]; [s] is returned unchanged when there is none. *)
Fixpoint Replace1 (s old new : string) : string :=
  if HasPrefix s old then new +:+ dropChars (String.length old) s
  else match s with
       | EmptyString => EmptyString
       | String c s' => String c (Replace1 s' old new)
       end.

(** [time.Duration] counts nanoseconds. *)
Definition Second : Z := 1000000000.

(** *** net/http *)

Record Client : Type := { Timeout : Z }.

(** An outbound request.  [Body] is the document whose encoding is the byte
    buffer handed to [http.NewRequest]. *)
Record Request : Type := {
  Method : string;
  URL : string;
  Header : gmap string (list string);
  Body : json
}.

(** [req.Header.Set(key, v)]: the values of [key] are replaced by [v].  The
    keys set by this package are already in canonical MIME form. *)
Definition Header_Set (key v : string) (req : Request) : Request :=
  {| Method := Method req; URL := URL req;
     Header := <[key := [v]]> (Header req); Body := Body req |}.

(** [req.Header.Get(key)]: the first value of [key]. *)
Definition Header_Get (key : string) (req : Request) : option string :=
  match Header req !! key with
  | Some (v :: _) => Some v
  | _ => None
  end.

(** Token characters of RFC 7230, the alphabet of a method name. *)
Definition isTokenChar (c : ascii) : bool :=
  let n := Z.of_N (N_of_ascii c) in
  ((48 <=? n) && (n <=? 57)) || ((65 <=? n) && (n <=? 90)) || ((97 <=? n) && (n <=? 122))
  || bool_decide (c ∈ String.list_ascii_of_string "!#$%&'*+-.^_`|~").

Definition validMethod (method : string) : bool :=
  negb (bool_decide (method = EmptyString))
  && forallb isTokenChar (String.list_ascii_of_string method).

(** ASCII control bytes, which [url.Parse] refuses anywhere in a URL. *)
Definition stringContainsCTLByte (s : string) : bool :=
  existsb (fun c => let n := Z.of_N (N_of_ascii c) in (n <? 32) || (n =? 127))
          (String.list_ascii_of_string s).

(** [http.NewRequest(method, url, body)].  It fails on a method that is not a
    token and on a URL that [url.Parse] refuses.  Of the refusals of
    [url.Parse] only the control-byte check is modelled; a bad percent
    escape, host or port is not.  The definition is exact on the URLs that
    the package builds, which are literals that [url.Parse] accepts: the
    domain followed by a path of [sendRequest_calls] or by [/graphql], and
    [https://api.plasso.com].  The properties of [sendRequest] that need the
    request to be accepted are stated for those calls. *)
Definition http_NewRequest (method url : string) (body : json) : error + Request :=
  let method := if bool_decide (method = EmptyString) then "GET" else method in
  if negb (validMethod method) then
    inl (errors_New ("net/http: invalid method " +:+ dq +:+ method +:+ dq))
  else if stringContainsCTLByte url then
    inl (errors_New ("parse " +:+ dq +:+ url +:+ dq +:+ ": net/url: invalid control character in URL"))
  else
    inr {| Method := method; URL := url; Header := ∅; Body := body |}.

(** The answer to a request: its status code and what reading the body to
    its end ([ioutil.ReadAll(res.Body)]) gives.  Closing the body
    ([defer res.Body.Close()]) has no effect that the model observes. *)
Record Response : Type := {
  StatusCode : Z;
  ReadAll : error + string
}.

(** One round trip as the remote side sees it: the client (its timeout) and
    the request. *)
Definition Exchange : Type := Client * Request.

(** The network and the remote server: given the exchanges so far and the
    current one, either a transport error or a response. *)
Definition World : Type := list Exchange -> Exchange -> error + Response.

(** *** Program state

    The heap holds the structs that the package reaches through pointers;
    [wire] records the exchanges performed so far, oldest first. *)
Record State (O : Type) : Type := mkState {
  heap : gmap loc O;
  wire : list Exchange
}.
Global Arguments mkState {O} _ _.
Global Arguments heap {O} _.
Global Arguments wire {O} _.

(** A computation ends with a value or with a run-time panic. *)
Inductive result (A : Type) : Type :=
| Ok (a : A)
| Panic (msg : string).
Global Arguments Ok {A} _.
Global Arguments Panic {A} _.

Definition M (O A : Type) : Type := State O -> result A * State O.

Global Instance M_ret {O} : MRet (M O) := fun A a s => (Ok a, s).
Global Instance M_bind {O} : MBind (M O) := fun A B f c s =>
  match c s with
  | (Ok a, s') => f a s'
  | (Panic msg, s') => (Panic msg, s')
  end.

(** [&T{...}]: a fresh cell. *)
Definition new {O} (o : O) : M O loc := fun s =>
  let l := fresh (dom (heap s)) in
  (Ok l, mkState (<[l := o]> (heap s)) (wire s)).

(** [*p]: reading through a pointer; nil panics. *)
Definition load {O} (p : option loc) : M O O := fun s =>
  match p with
  | Some l =>
      match heap s !! l with
      | Some o => (Ok o, s)
      | None => (Panic "invalid memory address or nil pointer dereference", s)
      end
  | None => (Panic "invalid memory address or nil pointer dereference", s)
  end.

Definition panic {O A} (msg : string) : M O A := fun s => (Panic msg, s).

(** [client.Do(req)] *)
Definition client_Do {O} (world : World) (client : Client) (req : Request)
  : M O (error + Response) := fun s =>
  (Ok (world (wire s) (client, req)), mkState (heap s) (wire s ++ [(client, req)])).

End golib.

(** ** Package flexkit ([flexkit/flexkit.go]) *)

Module flexkit.
Import golib.

Definition domain : string := "https://plasso.com".

Definition getMemberQuery : string :=
  String.concat nl [
    "";
    "query getMember($token: String) {";
    "  member(token: $token) {";
    "  " +:+ tab +:+ "id,";
    "    name,";
    "    email,";
    "    ccType,";
    "    ccLast4,";
    "    shippingInfo {";
    "      name";
    "      address";
    "      city";
    "      state";
    "      zip";
    "      country";
    "    },";
    "    dataFields {";
    "      id,";
    "      value";
    "    },";
    "    plan {";
    "    " +:+ tab +:+ "alias";
    "    }";
    "  }";
    "}" ].

Module gqlQuery.
Record t : Type := mk {
  Query : string;
  Variables : option (gmap string string)
}.
Global Instance Reflect_gqlQuery : Reflect t := fun r => VStruct [
  ("Query", "query", reflect (Query r));
  ("Variables", "variables", VMap (Variables r))
].
End gqlQuery.

(** The structure that is passed to [Login]. *)
Module LoginRequest.
Record t : Type := mk {
  PublicKey : string;
  Email : string;
  Password : string
}.
Global Instance Reflect_LoginRequest : Reflect t := fun r => VStruct [
  ("PublicKey", "public_key", reflect (PublicKey r));
  ("Email", "email", reflect (Email r));
  ("Password", "password", reflect (Password r))
].
End LoginRequest.

(** A product. *)
Module Product.
Record t : Type := mk {
  Id : string;
  Qty : string;
  Amount : string
}.
Global Instance Reflect_Product : Reflect t := fun r => VStruct [
  ("Id", "id", reflect (Id r));
  ("Qty", "qty", reflect (Qty r));
  ("Amount", "amount", reflect (Amount r))
].
End Product.

(** A data item. *)
Module DataItem.
Record t : Type := mk {
  Id : string;
  Value : string
}.
Global Instance Reflect_DataItem : Reflect t := fun r => VStruct [
  ("Id", "id", reflect (Id r));
  ("Value", "value", reflect (Value r))
].
End DataItem.

(** The structure that is passed to [CreatePayment]. *)
Module PaymentRequest.
Record t : Type := mk {
  PublicKey : string;
  Token : string;
  Products : option (list Product.t);
  BillingAddress : string;
  BillingCity : string;
  BillingState : string;
  BillingZip : string;
  BillingCountry : string;
  ShippingName : string;
  ShippingAddress : string;
  ShippingCity : string;
  ShippingState : string;
  ShippingZip : string;
  ShippingCountry : string;
  ShippingOptions : string;
  DataFields : option (list DataItem.t);
  Coupon : string;
  Email : string;
  Name : string
}.
Global Instance Reflect_PaymentRequest : Reflect t := fun r => VStruct [
  ("PublicKey", "public_key", reflect (PublicKey r));
  ("Token", "token", reflect (Token r));
  ("Products", "products", reflect (Products r));
  ("BillingAddress", "billing_address", reflect (BillingAddress r));
  ("BillingCity", "billing_city", reflect (BillingCity r));
  ("BillingState", "billing_state", reflect (BillingState r));
  ("BillingZip", "billing_zip", reflect (BillingZip r));
  ("BillingCountry", "billing_country", reflect (BillingCountry r));
  ("ShippingName", "shipping_name", reflect (ShippingName r));
  ("ShippingAddress", "shipping_address", reflect (ShippingAddress r));
  ("ShippingCity", "shipping_city", reflect (ShippingCity r));
  ("ShippingState", "shipping_state", reflect (ShippingState r));
  ("ShippingZip", "shipping_zip", reflect (ShippingZip r));
  ("ShippingCountry", "shipping_country", reflect (ShippingCountry r));
  ("ShippingOptions", "shipping_options", reflect (ShippingOptions r));
  ("DataFields", "data_fields", reflect (DataFields r));
  ("Coupon", "coupon", reflect (Coupon r));
  ("Email", "email", reflect (Email r));
  ("Name", "name", reflect (Name r))
].
End PaymentRequest.

(** The structure that is passed to [CreateSubscription]. *)
Module SubscriptionRequest.
Record t : Type := mk {
  SubscriptionFor : string;
  Email : string;
  Name : string;
  Password : string;
  Plan : string;
  Token : string;
  BillingAddress : string;
  BillingCity : string;
  BillingState : string;
  BillingZip : string;
  BillingCountry : string;
  ShippingName : string;
  ShippingAddress : string;
  ShippingCity : string;
  ShippingState : string;
  ShippingZip : string;
  ShippingCountry : string;
  ShippingOptions : string;
  DataFields : option (list DataItem.t);
  PublicKey : string
}.
Global Instance Reflect_SubscriptionRequest : Reflect t := fun r => VStruct [
  ("SubscriptionFor", "subscription_for", reflect (SubscriptionFor r));
  ("Email", "email", reflect (Email r));
  ("Name", "name", reflect (Name r));
  ("Password", "password", reflect (Password r));
  ("Plan", "plan", reflect (Plan r));
  ("Token", "token", reflect (Token r));
  ("BillingAddress", "billing_address", reflect (BillingAddress r));
  ("BillingCity", "billing_city", reflect (BillingCity r));
  ("BillingState", "billing_state", reflect (BillingState r));
  ("BillingZip", "billing_zip", reflect (BillingZip r));
  ("BillingCountry", "billing_country", reflect (BillingCountry r));
  ("ShippingName", "shipping_name", reflect (ShippingName r));
  ("ShippingAddress", "shipping_address", reflect (ShippingAddress r));
  ("ShippingCity", "shipping_city", reflect (ShippingCity r));
  ("ShippingState", "shipping_state", reflect (ShippingState r));
  ("ShippingZip", "shipping_zip", reflect (ShippingZip r));
  ("ShippingCountry", "shipping_country", reflect (ShippingCountry r));
  ("ShippingOptions", "shipping_options", reflect (ShippingOptions r));
  ("DataFields", "data_fields", reflect (DataFields r));
  ("PublicKey", "public_key", reflect (PublicKey r))
].
(** [r.SubscriptionFor = v] *)
Definition set_SubscriptionFor (v : string) (r : t) : t :=
  {| SubscriptionFor := v;
     Email := Email r;
     Name := Name r;
     Password := Password r;
     Plan := Plan r;
     Token := Token r;
     BillingAddress := BillingAddress r;
     BillingCity := BillingCity r;
     BillingState := BillingState r;
     BillingZip := BillingZip r;
     BillingCountry := BillingCountry r;
     ShippingName := ShippingName r;
     ShippingAddress := ShippingAddress r;
     ShippingCity := ShippingCity r;
     ShippingState := ShippingState r;
     ShippingZip := ShippingZip r;
     ShippingCountry := ShippingCountry r;
     ShippingOptions := ShippingOptions r;
     DataFields := DataFields r;
     PublicKey := PublicKey r
  |}.
End SubscriptionRequest.

(** The answer of the login and subscription endpoints. *)
Module tokenResponse.
Record t : Type := mk {
  Token : string
}.
End tokenResponse.

(** A request to update the payment information of a member.  The field
    [memberToken] is not exported. *)
Module CreditCardRequest.
Record t : Type := mk {
  Last4 : string;
  Type_ : string;
  PlanId : string;
  Token : string;
  memberToken : string
}.
Global Instance Reflect_CreditCardRequest : Reflect t := fun r => VStruct [
  ("Last4", "cc_last_4", reflect (Last4 r));
  ("Type", "cc_type", reflect (Type_ r));
  ("PlanId", "plan", reflect (PlanId r));
  ("Token", "token", reflect (Token r));
  ("memberToken", "pltoken", reflect (memberToken r))
].
(** [r.memberToken = v] *)
Definition set_memberToken (v : string) (r : t) : t :=
  {| Last4 := Last4 r;
     Type_ := Type_ r;
     PlanId := PlanId r;
     Token := Token r;
     memberToken := v
  |}.
End CreditCardRequest.

(** A request to change the settings of a member.  The field [token] is not
    exported. *)
Module SettingsRequest.
Record t : Type := mk {
  Email : string;
  Name : string;
  ShippingName : string;
  ShippingAddress : string;
  ShippingCity : string;
  ShippingState : string;
  ShippingZip : string;
  ShippingCountry : string;
  ShippingOptions : string;
  token : string
}.
Global Instance Reflect_SettingsRequest : Reflect t := fun r => VStruct [
  ("Email", "email", reflect (Email r));
  ("Name", "name", reflect (Name r));
  ("ShippingName", "shipping_name", reflect (ShippingName r));
  ("ShippingAddress", "shipping_address", reflect (ShippingAddress r));
  ("ShippingCity", "shipping_city", reflect (ShippingCity r));
  ("ShippingState", "shipping_state", reflect (ShippingState r));
  ("ShippingZip", "shipping_zip", reflect (ShippingZip r));
  ("ShippingCountry", "shipping_country", reflect (ShippingCountry r));
  ("ShippingOptions", "shipping_options", reflect (ShippingOptions r));
  ("token", "pltoken", reflect (token r))
].
(** [r.token = v] *)
Definition set_token (v : string) (r : t) : t :=
  {| Email := Email r;
     Name := Name r;
     ShippingName := ShippingName r;
     ShippingAddress := ShippingAddress r;
     ShippingCity := ShippingCity r;
     ShippingState := ShippingState r;
     ShippingZip := ShippingZip r;
     ShippingCountry := ShippingCountry r;
     ShippingOptions := ShippingOptions r;
     token := v
  |}.
End SettingsRequest.

(** A handle to a member. *)
Module Member.
Record t : Type := mk {
  PublicKey : string;
  Token : string
}.
End Member.

(** Information about a member. *)
Module MemberData.
Record t : Type := mk {
  Id : string;
  Email : string;
  Name : string;
  CreditCardLast4 : string;
  CreditCardType : string;
  ShippingName : string;
  ShippingAddress : string;
  ShippingCity : string;
  ShippingState : string;
  ShippingZip : string;
  ShippingCountry : string;
  ShippingOptions : string;
  DataFields : option (list DataItem.t);
  Plan : string
}.
End MemberData.

(** The shape of the answer to [getMemberQuery]; the names of the JSON
    members it is decoded from are given with each field. *)
Module memberDataResponse.
Module Plan.
Record t : Type := mk {
  Alias : string                          (* alias *)
}.
End Plan.
Module ShippingInfo.
Record t : Type := mk {
  Name : string;                          (* name *)
  Address : string;                       (* address *)
  City : string;                          (* city *)
  State : string;                         (* state *)
  Zip : string;                           (* zip *)
  Country : string                        (* country *)
}.
End ShippingInfo.
Module Member.
Record t : Type := mk {
  Id : string;                            (* id *)
  Name : string;                          (* name *)
  Email : string;                         (* email *)
  CcType : string;                        (* ccType *)
  CcLast4 : string;                       (* ccLast4 *)
  Plan : Plan.t;                          (* plan *)
  ShippingInfo : ShippingInfo.t;          (* shippingInfo *)
  DataFields : option (list DataItem.t)   (* dataFields *)
}.
End Member.
Module Data.
Record t : Type := mk {
  Member : Member.t                       (* member *)
}.
End Data.
Record t : Type := mk {
  Data : Data.t                             (* data *)
}.
End memberDataResponse.

(** The structs of this package that live behind pointers. *)
Inductive object : Type :=
| OMember (m : Member.t)
| OMemberData (d : MemberData.t).

Section Operations.
Context (world : World).
Context `{!Unmarshal tokenResponse.t} `{!Unmarshal memberDataResponse.t}.

(** Reading the [Member] behind [member]. *)
Definition load_Member (member : option loc) : M object Member.t :=
  o ← load member;
  match o with
  | OMember m => mret m
  | OMemberData _ => panic "invalid memory address or nil pointer dereference"
  end.

(** [graphQL(query, variables, &response)].  The decoded [response] comes
    back in place of the error when there is none; on an error the caller
    does not read it. *)
Definition graphQL {T} `{!Unmarshal T} (query : string)
    (variables : option (gmap string string)) : M object (error + T) :=
  let client := {| Timeout := 15 * Second |} in
  let gql := gqlQuery.mk query variables in
  match json_Marshal gql with
  | inl err => mret (inl err)
  | inr body =>
      let url := domain +:+ "/graphql" in
      match http_NewRequest "POST" url body with
      | inl err => mret (inl err)
      | inr req =>
          let req := Header_Set "Content-Type" "application/json" req in
          res ← client_Do world client req;
          match res with
          | inl err => mret (inl err)
          | inr res =>
              match ReadAll res with
              | inl err => mret (inl err)
              | inr responseBody => mret (json_Unmarshal responseBody)
              end
          end
      end
  end.

(** [sendRequest(kind, path, request)], returning the response body (nil is
    [None]) and the error (nil is [None]). *)
Definition sendRequest {T} `{!Reflect T} (kind path : string) (request : T)
  : M object (option string * option error) :=
  let url := domain +:+ path in
  let client := {| Timeout := 30 * Second |} in
  match json_Marshal request with
  | inl err => mret (None, Some err)
  | inr body =>
      match http_NewRequest kind url body with
      | inl err => mret (None, Some err)
      | inr req =>
          let req := Header_Set "Content-Type" "application/json" req in
          res ← client_Do world client req;
          match res with
          | inl err => mret (None, Some err)
          | inr res =>
              match ReadAll res with
              | inl err => mret (None, Some err)
              | inr responseBody =>
                  if (StatusCode res <? 200) || (StatusCode res >? 299) then
                    let errorText :=
                      kind +:+ " " +:+ pretty (StatusCode res) +:+ " " +:+ url
                           +:+ " " +:+ responseBody in
                    mret (Some responseBody, Some (errors_New errorText))
                  else mret (Some responseBody, None)
              end
          end
      end
  end.

(** The bytes of a slice, nil or not. *)
Definition bytes (b : option string) : string := default "" b.

(** Authenticates and returns a [Member]. *)
Definition Login (request : LoginRequest.t) : M object (option loc * option error) :=
  '(body, err) ← sendRequest "POST" "/api/service/login" request;
  match err with
  | Some err => mret (None, Some err)
  | None =>
      match json_Unmarshal (bytes body) with
      | inl err => mret (None, Some err)
      | inr r =>
          p ← new (OMember (Member.mk (LoginRequest.PublicKey request) (tokenResponse.Token r)));
          mret (Some p, None)
      end
  end.

(** Get member details. *)
Definition GetData (member : option loc) : M object (option loc * option error) :=
  m ← load_Member member;
  let variables : gmap string string := {[ "token" := Member.Token m ]} in
  r ← graphQL getMemberQuery (Some variables);
  match r with
  | inl err => mret (None, Some err)
  | inr response =>
      let rm := memberDataResponse.Data.Member (memberDataResponse.Data response) in
      let memberData := {|
        MemberData.Id := memberDataResponse.Member.Id rm;
        MemberData.Email := memberDataResponse.Member.Email rm;
        MemberData.Name := memberDataResponse.Member.Name rm;
        MemberData.CreditCardLast4 := memberDataResponse.Member.CcLast4 rm;
        MemberData.CreditCardType := memberDataResponse.Member.CcType rm;
        MemberData.ShippingName :=
          memberDataResponse.ShippingInfo.Name (memberDataResponse.Member.ShippingInfo rm);
        MemberData.ShippingAddress :=
          memberDataResponse.ShippingInfo.Address (memberDataResponse.Member.ShippingInfo rm);
        MemberData.ShippingCity :=
          memberDataResponse.ShippingInfo.City (memberDataResponse.Member.ShippingInfo rm);
        MemberData.ShippingState :=
          memberDataResponse.ShippingInfo.State (memberDataResponse.Member.ShippingInfo rm);
        MemberData.ShippingZip :=
          memberDataResponse.ShippingInfo.Zip (memberDataResponse.Member.ShippingInfo rm);
        MemberData.ShippingCountry :=
          memberDataResponse.ShippingInfo.Country (memberDataResponse.Member.ShippingInfo rm);
        MemberData.ShippingOptions := "";
        MemberData.DataFields := memberDataResponse.Member.DataFields rm;
        MemberData.Plan := memberDataResponse.Plan.Alias (memberDataResponse.Member.Plan rm)
      |} in
      p ← new (OMemberData memberData);
      mret (Some p, None)
  end.

(** Update member settings.  [request] is the method's own copy of the
    argument. *)
Definition UpdateSettings (member : option loc) (request : SettingsRequest.t)
  : M object (option error) :=
  m ← load_Member member;
  let request := SettingsRequest.set_token (Member.Token m) request in
  '(_, err) ← sendRequest "POST" "/api/services/user?action=settings" request;
  match err with
  | Some err => mret (Some err)
  | None => mret None
  end.

(** Update the payment details of a member. *)
Definition UpdateCreditCard (member : option loc) (request : CreditCardRequest.t)
  : M object (option error) :=
  m ← load_Member member;
  let request := CreditCardRequest.set_memberToken (Member.Token m) request in
  '(_, err) ← sendRequest "POST" "/api/services/user?action=cc" request;
  match err with
  | Some err => mret (Some err)
  | None => mret None
  end.

(** Creates a new payment. *)
Definition CreatePayment (request : PaymentRequest.t) : M object (option error) :=
  '(_, err) ← sendRequest "POST" "/api/payments" request;
  match err with
  | Some err => mret (Some err)
  | None => mret None
  end.

(** Creates a new subscription to a plan. *)
Definition CreateSubscription (request : SubscriptionRequest.t)
  : M object (option loc * option error) :=
  let request := SubscriptionRequest.set_SubscriptionFor "space" request in
  '(body, err) ← sendRequest "POST" "/api/subscriptions" request;
  match err with
  | Some err => mret (None, Some err)
  | None =>
      match json_Unmarshal (bytes body) with
      | inl err => mret (None, Some err)
      | inr r =>
          p ← new (OMember (Member.mk (SubscriptionRequest.PublicKey request) (tokenResponse.Token r)));
          mret (Some p, None)
      end
  end.

(** Deletes the member. *)
Definition Delete (member : option loc) : M object (option error) :=
  m ← load_Member member;
  let request : gmap string string := {[ "token" := Member.Token m ]} in
  '(_, err) ← sendRequest "DELETE" "/api/service/user" request;
  match err with
  | Some err => mret (Some err)
  | None => mret None
  end.

(** Logs out the member. *)
Definition Logout (member : option loc) : M object (option error) :=
  m ← load_Member member;
  let request : gmap string string :=
    {[ "token" := Member.Token m; "public_key" := Member.PublicKey m ]} in
  '(_, err) ← sendRequest "POST" "/api/service/logout" request;
  match err with
  | Some err => mret (Some err)
  | None => mret err
  end.

End Operations.

End flexkit.

(** ** Package flexkit, earlier revision

    The second source file carries an earlier revision of [flexkit.go].  Its
    structs [LoginRequest], [Product], [DataItem], [PaymentRequest],
    [tokenResponse], [SettingsRequest] and [Member] are declared exactly as
    in the later revision and are shared with it.  The same file opens with
    a package [billing], a draft of [members.go] whose functions other than
    [New] have empty bodies; it is not embedded. *)

Module variant.
Import golib.

Definition domain : string := "https://plasso.com".

Module LoginRequest := flexkit.LoginRequest.
Module Product := flexkit.Product.
Module DataItem := flexkit.DataItem.
Module PaymentRequest := flexkit.PaymentRequest.
Module tokenResponse := flexkit.tokenResponse.
Module SettingsRequest := flexkit.SettingsRequest.
Module Member := flexkit.Member.

(** The structure that is passed to [CreateSubscription].  In this revision
    the field [subscriptionFor] is not exported. *)
Module SubscriptionRequest.
Record t : Type := mk {
  subscriptionFor : string;
  Email : string;
  Name : string;
  Password : string;
  Plan : string;
  Token : string;
  BillingAddress : string;
  BillingCity : string;
  BillingState : string;
  BillingZip : string;
  BillingCountry : string;
  ShippingName : string;
  ShippingAddress : string;
  ShippingCity : string;
  ShippingState : string;
  ShippingZip : string;
  ShippingCountry : string;
  ShippingOptions : string;
  DataFields : option (list DataItem.t);
  PublicKey : string
}.
Global Instance Reflect_SubscriptionRequest_variant : Reflect t := fun r => VStruct [
  ("subscriptionFor", "subscription_for", reflect (subscriptionFor r));
  ("Email", "email", reflect (Email r));
  ("Name", "name", reflect (Name r));
  ("Password", "password", reflect (Password r));
  ("Plan", "plan", reflect (Plan r));
  ("Token", "token", reflect (Token r));
  ("BillingAddress", "billing_address", reflect (BillingAddress r));
  ("BillingCity", "billing_city", reflect (BillingCity r));
  ("BillingState", "billing_state", reflect (BillingState r));
  ("BillingZip", "billing_zip", reflect (BillingZip r));
  ("BillingCountry", "billing_country", reflect (BillingCountry r));
  ("ShippingName", "shipping_name", reflect (ShippingName r));
  ("ShippingAddress", "shipping_address", reflect (ShippingAddress r));
  ("ShippingCity", "shipping_city", reflect (ShippingCity r));
  ("ShippingState", "shipping_state", reflect (ShippingState r));
  ("ShippingZip", "shipping_zip", reflect (ShippingZip r));
  ("ShippingCountry", "shipping_country", reflect (ShippingCountry r));
  ("ShippingOptions", "shipping_options", reflect (ShippingOptions r));
  ("DataFields", "data_fields", reflect (DataFields r));
  ("PublicKey", "public_key", reflect (PublicKey r))
].
(** [r.subscriptionFor = v] *)
Definition set_subscriptionFor (v : string) (r : t) : t :=
  {| subscriptionFor := v;
     Email := Email r;
     Name := Name r;
     Password := Password r;
     Plan := Plan r;
     Token := Token r;
     BillingAddress := BillingAddress r;
     BillingCity := BillingCity r;
     BillingState := BillingState r;
     BillingZip := BillingZip r;
     BillingCountry := BillingCountry r;
     ShippingName := ShippingName r;
     ShippingAddress := ShippingAddress r;
     ShippingCity := ShippingCity r;
     ShippingState := ShippingState r;
     ShippingZip := ShippingZip r;
     ShippingCountry := ShippingCountry r;
     ShippingOptions := ShippingOptions r;
     DataFields := DataFields r;
     PublicKey := PublicKey r
  |}.
End SubscriptionRequest.

(** A request to update the payment information of a member; [PlanId] is an
    [int] in this revision. *)
Module CreditCardRequest.
Record t : Type := mk {
  Last4 : string;
  Type_ : string;
  PlanId : Z;
  Token : string;
  memberToken : string
}.
Global Instance Reflect_CreditCardRequest_variant : Reflect t := fun r => VStruct [
  ("Last4", "cc_last_4", reflect (Last4 r));
  ("Type", "cc_type", reflect (Type_ r));
  ("PlanId", "plan", reflect (PlanId r));
  ("Token", "token", reflect (Token r));
  ("memberToken", "pltoken", reflect (memberToken r))
].
(** [r.memberToken = v] *)
Definition set_memberToken (v : string) (r : t) : t :=
  {| Last4 := Last4 r;
     Type_ := Type_ r;
     PlanId := PlanId r;
     Token := Token r;
     memberToken := v
  |}.
End CreditCardRequest.

(** Information about a member. *)
Module MemberData.
Record t : Type := mk {
  Id : string;
  Email : string;
  Name : string;
  BillingAddress : string;
  BillingCity : string;
  BillingState : string;
  BillingZip : string;
  BillingCountry : string;
  ShippingName : string;
  ShippingAddress : string;
  ShippingCity : string;
  ShippingState : string;
  ShippingZip : string;
  ShippingCountry : string;
  ShippingOptions : string;
  DataFields : option (list DataItem.t);
  Plans : option (list string)
}.
End MemberData.

(** The structs of this revision that live behind pointers. *)
Inductive object : Type :=
| OMember (m : Member.t).

Section Operations.
Context (world : World).
Context `{!Unmarshal tokenResponse.t}.

Definition load_Member (member : option loc) : M object Member.t :=
  o ← load member;
  match o with
  | OMember m => mret m
  end.

(** [sendRequest(kind, path, request)] of this revision: a client with a
    five second timeout, and the status test [> 300]. *)
Definition sendRequest {T} `{!Reflect T} (kind path : string) (request : T)
  : M object (option string * option error) :=
  let url := domain +:+ path in
  let client := {| Timeout := 5 * Second |} in
  match json_Marshal request with
  | inl err => mret (None, Some err)
  | inr body =>
      match http_NewRequest kind url body with
      | inl err => mret (None, Some err)
      | inr req =>
          let req := Header_Set "Content-Type" "application/json" req in
          res ← client_Do world client req;
          match res with
          | inl err => mret (None, Some err)
          | inr res =>
              match ReadAll res with
              | inl err => mret (None, Some err)
              | inr responseBody =>
                  if (StatusCode res <? 200) || (StatusCode res >? 300) then
                    let errorText :=
                      kind +:+ " " +:+ pretty (StatusCode res) +:+ " " +:+ url
                           +:+ " " +:+ responseBody in
                    mret (Some responseBody, Some (errors_New errorText))
                  else mret (Some responseBody, None)
              end
          end
      end
  end.

Definition bytes (b : option string) : string := default "" b.

(** Authenticates and returns a [Member]. *)
Definition Login (request : LoginRequest.t) : M object (option loc * option error) :=
  '(body, err) ← sendRequest "POST" "/api/service/login" request;
  match err with
  | Some err => mret (None, Some err)
  | None =>
      match json_Unmarshal (bytes body) with
      | inl err => mret (None, Some err)
      | inr r =>
          p ← new (OMember (Member.mk (LoginRequest.PublicKey request) (tokenResponse.Token r)));
          mret (Some p, None)
      end
  end.

(** Get member details: not written yet in this revision. *)
Definition GetData (member : option loc) : M object (option loc * option error) :=
  mret (None, None).

(** Update member settings. *)
Definition UpdateSettings (member : option loc) (request : SettingsRequest.t)
  : M object (option error) :=
  m ← load_Member member;
  let request := SettingsRequest.set_token (Member.Token m) request in
  '(_, err) ← sendRequest "POST" "/api/services/user?action=settings" request;
  match err with
  | Some err => mret (Some err)
  | None => mret None
  end.

(** Update the payment details of a member. *)
Definition UpdateCreditCard (member : option loc) (request : CreditCardRequest.t)
  : M object (option error) :=
  m ← load_Member member;
  let request := CreditCardRequest.set_memberToken (Member.Token m) request in
  '(_, err) ← sendRequest "POST" "/api/services/user?action=cc" request;
  match err with
  | Some err => mret (Some err)
  | None => mret None
  end.

(** Creates a new payment. *)
Definition CreatePayment (request : PaymentRequest.t) : M object (option error) :=
  '(_, err) ← sendRequest "POST" "/api/payments" request;
  match err with
  | Some err => mret (Some err)
  | None => mret None
  end.

(** Creates a new subscription to a plan. *)
Definition CreateSubscription (request : SubscriptionRequest.t)
  : M object (option loc * option error) :=
  let request := SubscriptionRequest.set_subscriptionFor "space" request in
  '(body, err) ← sendRequest "POST" "/api/subscriptions" request;
  match err with
  | Some err => mret (None, Some err)
  | None =>
      match json_Unmarshal (bytes body) with
      | inl err => mret (None, Some err)
      | inr r =>
          p ← new (OMember (Member.mk (SubscriptionRequest.PublicKey request) (tokenResponse.Token r)));
          mret (Some p, None)
      end
  end.

(** Deletes the member. *)
Definition Delete (member : option loc) : M object (option error) :=
  m ← load_Member member;
  let request : gmap string string := {[ "token" := Member.Token m ]} in
  '(_, err) ← sendRequest "DELETE" "/api/service/user" request;
  match err with
  | Some err => mret (Some err)
  | None => mret None
  end.

(** Logs out the member. *)
Definition Logout (member : option loc) : M object (option error) :=
  m ← load_Member member;
  let request : gmap string string := {[ "token" := Member.Token m ]} in
  '(_, err) ← sendRequest "POST" "/api/service/logout" request;
  match err with
  | Some err => mret (Some err)
  | None => mret None
  end.

End Operations.

End variant.

(** ** Package plasso ([members.go])

    Only [New] has a body in this file; [FromRequest], [ToResponse], [logout],
    [redirect] and [Protect] are placeholders. *)

Module plasso.
Import golib.

Module space.
Record t : Type := mk {
  LogoutUrl : string
}.
End space.

Module plasso.
Record t : Type := mk {
  LoggedIn : bool;
  Token : string;
  Id : string;
  PlanId : Z;               (* int32 *)
  Space : space.t
}.
End plasso.

Module gqlQuery.
Record t : Type := mk {
  Query : string
}.
Global Instance Reflect_gqlQuery_plasso : Reflect t := fun r => VStruct [
  ("Query", "query", reflect (Query r))
].
End gqlQuery.

Module gqlResponse.
Module Space.
Record t : Type := mk {
  Slug : string;          (* slug *)
  LogoutUrl : string      (* logoutUrl *)
}.
End Space.
Module Member.
Record t : Type := mk {
  Id : string;            (* id *)
  PlanId : Z;             (* planId, int32 *)
  Space : Space.t         (* space *)
}.
End Member.
Module Data.
Record t : Type := mk {
  Member : Member.t       (* member *)
}.
End Data.
Record t : Type := mk {
  Data : Data.t             (* data *)
}.
End gqlResponse.

Section Operations.
Context (world : World).
Context `{!Unmarshal gqlResponse.t}.

Definition New (token : string) : M plasso.t (option loc * option error) :=
  let client := {| Timeout := 1 * Second |} in
  let template :=
    "{member(token:" +:+ dq +:+ "{{.token}}" +:+ dq +:+ "){id,planId,space{logoutUrl}}}" in
  let query := Replace1 template "{{.token}}" token in
  let gql := gqlQuery.mk query in
  match json_Marshal gql with
  | inl err => mret (None, Some err)
  | inr body =>
      match http_NewRequest "POST" "https://api.plasso.com" body with
      | inl err => mret (None, Some err)
      | inr req =>
          let req := Header_Set "Content-Type" "application/json" req in
          res ← client_Do world client req;
          match res with
          | inl err => mret (None, Some err)
          | inr res =>
              match ReadAll res with
              | inl err => mret (None, Some err)
              | inr responseBody =>
                  match json_Unmarshal responseBody with
                  | inl err => mret (None, Some err)
                  | inr r =>
                      let m := gqlResponse.Data.Member (gqlResponse.Data r) in
                      p ← new (plasso.mk true token (gqlResponse.Member.Id m)
                                 (gqlResponse.Member.PlanId m)
                                 (space.mk (gqlResponse.Space.LogoutUrl (gqlResponse.Member.Space m))));
                      mret (Some p, None)
                  end
              end
          end
      end
  end.

End Operations.

End plasso.

(** ** Canned servers, decoders and states

    Concrete inputs on which the operations are run below.  The decoders are
    defined on the canned bodies only, where they return what
    [encoding/json] returns. *)

Module sample.
Import golib.

(** A server that answers every request with [status] and [body]. *)
Definition server (status : Z) (body : string) : World :=
  fun _ _ => inr {| StatusCode := status; ReadAll := inr body |}.

(** [{"token":"tok_1"}] *)
Definition token_body : string :=
  "{" +:+ dq +:+ "token" +:+ dq +:+ ":" +:+ dq +:+ "tok_1" +:+ dq +:+ "}".

(** A server that answers 201 with a token when the body it is sent carries
    [subscription_for] set to [space], and 400 otherwise. *)
Definition subscription_server : World :=
  fun _ ex =>
    match field_of "subscription_for" (Body ex.2) with
    | Some (JString kind) =>
        if bool_decide (kind = "space") then
          inr {| StatusCode := 201; ReadAll := inr token_body |}
        else
          inr {| StatusCode := 400; ReadAll := inr "bad request" |}
    | _ => inr {| StatusCode := 400; ReadAll := inr "bad request" |}
    end.

(** A server that looks at what it is sent: a POST whose body carries the
    password [secret] is answered with 200 and a token, anything else with
    401. *)
Definition auth_server : World :=
  fun _ ex =>
    match field_of "password" (Body ex.2) with
    | Some (JString pw) =>
        if bool_decide (pw = "secret") then
          inr {| StatusCode := 200; ReadAll := inr token_body |}
        else
          inr {| StatusCode := 401; ReadAll := inr "unauthorized" |}
    | _ => inr {| StatusCode := 401; ReadAll := inr "unauthorized" |}
    end.

Definition not_canned : error := errors_New "body outside the canned ones".

Definition Unmarshal_tokenResponse : Unmarshal flexkit.tokenResponse.t :=
  fun data =>
    if bool_decide (data = token_body) then inr (flexkit.tokenResponse.mk "tok_1")
    else inl not_canned.

(** [{"data":{"member":{"id":"42","plan":{"alias":"gold"}}}}] *)
Definition member_body : string :=
  "{" +:+ dq +:+ "data" +:+ dq +:+ ":{" +:+ dq +:+ "member" +:+ dq +:+ ":{"
      +:+ dq +:+ "id" +:+ dq +:+ ":" +:+ dq +:+ "42" +:+ dq +:+ ","
      +:+ dq +:+ "plan" +:+ dq +:+ ":{" +:+ dq +:+ "alias" +:+ dq +:+ ":"
      +:+ dq +:+ "gold" +:+ dq +:+ "}}}}".

(** What [member_body] decodes to: the members it names, the zero value
    elsewhere. *)
Definition member_response : flexkit.memberDataResponse.t :=
  flexkit.memberDataResponse.mk (flexkit.memberDataResponse.Data.mk
    (flexkit.memberDataResponse.Member.mk "42" "" "" "" ""
       (flexkit.memberDataResponse.Plan.mk "gold")
       (flexkit.memberDataResponse.ShippingInfo.mk "" "" "" "" "" "")
       None)).

(** What [{}] decodes to: the zero value. *)
Definition zero_response : flexkit.memberDataResponse.t :=
  flexkit.memberDataResponse.mk (flexkit.memberDataResponse.Data.mk
    (flexkit.memberDataResponse.Member.mk "" "" "" "" ""
       (flexkit.memberDataResponse.Plan.mk "")
       (flexkit.memberDataResponse.ShippingInfo.mk "" "" "" "" "" "")
       None)).

Definition Unmarshal_memberDataResponse : Unmarshal flexkit.memberDataResponse.t :=
  fun data =>
    if bool_decide (data = member_body) then inr member_response
    else if bool_decide (data = "{}") then inr zero_response
    else inl not_canned.

(** What [{}] decodes to in package plasso. *)
Definition Unmarshal_gqlResponse : Unmarshal plasso.gqlResponse.t :=
  fun data =>
    if bool_decide (data = "{}") then
      inr (plasso.gqlResponse.mk (plasso.gqlResponse.Data.mk
             (plasso.gqlResponse.Member.mk "" 0 (plasso.gqlResponse.Space.mk "" ""))))
    else inl not_canned.

(** A logged-in member at address 1. *)
Definition member : flexkit.Member.t := flexkit.Member.mk "pk_1" "tok_0".

Definition state : State flexkit.object :=
  mkState {[ 1%positive := flexkit.OMember member ]} [].

Definition state_variant : State variant.object :=
  mkState {[ 1%positive := variant.OMember member ]} [].

Definition login : flexkit.LoginRequest.t :=
  flexkit.LoginRequest.mk "pk_1" "ann@example.com" "secret".

Definition settings : flexkit.SettingsRequest.t :=
  flexkit.SettingsRequest.mk "ann@example.com" "Ann" "" "" "" "" "" "" "" "".

Definition card : flexkit.CreditCardRequest.t :=
  flexkit.CreditCardRequest.mk "4242" "visa" "gold" "src_1" "".

Definition card_variant : variant.CreditCardRequest.t :=
  variant.CreditCardRequest.mk "4242" "visa" 7 "src_1" "".

Definition subscription : flexkit.SubscriptionRequest.t :=
  flexkit.SubscriptionRequest.mk "member" "ann@example.com" "Ann" "secret" "gold" "src_1"
    "" "" "" "" "" "" "" "" "" "" "" "" None "pk_1".

Definition subscription_variant : variant.SubscriptionRequest.t :=
  variant.SubscriptionRequest.mk "member" "ann@example.com" "Ann" "secret" "gold" "src_1"
    "" "" "" "" "" "" "" "" "" "" "" "" None "pk_1".

End sample.

(** ** Vocabulary of the statements *)

Import golib.

(** The request that [sendRequest] and [graphQL] build from a method, a URL
    and an encoded body. *)
Definition jsonRequest (method url : string) (body : json) : Request :=
  Header_Set "Content-Type" "application/json"
    {| Method := method; URL := url; Header := ∅; Body := body |}.

(** The exchange that [GetData] performs for a member. *)
Definition getMemberExchange (m : flexkit.Member.t) : Exchange :=
  ({| Timeout := 15 * Second |},
   jsonRequest "POST" "https://plasso.com/graphql"
     (JObject [("query", JString flexkit.getMemberQuery);
               ("variables", JObject [("token", JString (flexkit.Member.Token m))])])).

(** What the encoder writes for a [DataItem], a [Product], and the
    variables of a GraphQL query. *)
Definition DataItem_json (d : flexkit.DataItem.t) : json :=
  JObject [("id", JString (flexkit.DataItem.Id d));
           ("value", JString (flexkit.DataItem.Value d))].

Definition Product_json (p : flexkit.Product.t) : json :=
  JObject [("id", JString (flexkit.Product.Id p));
           ("qty", JString (flexkit.Product.Qty p));
           ("amount", JString (flexkit.Product.Amount p))].

Definition variables_json (variables : option (gmap string string)) : json :=
  match variables with
  | None => JNull
  | Some m => JObject (List.map (fun kv => (kv.1, JString kv.2)) (sortedKeys m))
  end.

(** [c] keeps every heap cell that exists when it starts. *)
Definition keeps_cells {O A} (c : M O A) : Prop :=
  forall s l o, heap s !! l = Some o -> heap (c s).2 !! l = Some o.

(** Every exchange that [c] performs satisfies [P]. *)
Definition exchanges_satisfy {O A} (P : Exchange -> Prop) (c : M O A) : Prop :=
  forall s, exists sent, wire (c s).2 = wire s ++ sent /\ Forall P sent.

(** The bounds that the specification gives for a client timeout. *)
Definition timeout_in_bounds (ex : Exchange) : Prop :=
  1 * Second <= Timeout ex.1 <= 30 * Second.

(** A POST of a JSON body to [url]. *)
Definition posts_json_to (url : string) (ex : Exchange) : Prop :=
  Method ex.2 = "POST" /\ URL ex.2 = url /\
  Header_Get "Content-Type" ex.2 = Some "application/json".

(** A computation ended with a nil pointer and an error, or with a pointer
    and a nil error. *)
Definition pointer_xor_error (r : result (option loc * option error)) : Prop :=
  exists p err, r = Ok (p, err) /\
    ((p = None /\ is_Some err) \/ (is_Some p /\ err = None)).

(** The exchange that [Login] of flexkit.go performs for a request. *)
Definition loginExchange (r : flexkit.LoginRequest.t) : Exchange :=
  ({| Timeout := 30 * Second |},
   jsonRequest "POST" "https://plasso.com/api/service/login"
     (JObject [("public_key", JString (flexkit.LoginRequest.PublicKey r));
               ("email", JString (flexkit.LoginRequest.Email r));
               ("password", JString (flexkit.LoginRequest.Password r))])).

(** The exchanges that [Delete] and [Logout] of flexkit.go perform for a
    member. *)
Definition deleteExchange (m : flexkit.Member.t) : Exchange :=
  ({| Timeout := 30 * Second |},
   jsonRequest "DELETE" "https://plasso.com/api/service/user"
     (JObject [("token", JString (flexkit.Member.Token m))])).

Definition logoutExchange (m : flexkit.Member.t) : Exchange :=
  ({| Timeout := 30 * Second |},
   jsonRequest "POST" "https://plasso.com/api/service/logout"
     (JObject [("public_key", JString (flexkit.Member.PublicKey m));
               ("token", JString (flexkit.Member.Token m))])).

(** The exchange that [Logout] of the earlier revision performs. *)
Definition variant_logoutExchange (m : variant.Member.t) : Exchange :=
  ({| Timeout := 5 * Second |},
   jsonRequest "POST" "https://plasso.com/api/service/logout"
     (JObject [("token", JString (variant.Member.Token m))])).

(** The exchange that [New] of package plasso performs for a token: the
    token is spliced into the query between two double quotes, as it is. *)
Definition newExchange (token : string) : Exchange :=
  ({| Timeout := 1 * Second |},
   jsonRequest "POST" "https://api.plasso.com"
     (JObject [("query",
                JString ("{member(token:" +:+ dq +:+ token +:+ dq
                           +:+ "){id,planId,space{logoutUrl}}}"))])).

(** The answer was received, read to its end, and has a status code in
    200..299. *)
Definition answered_2xx (answer : error + Response) : Prop :=
  exists res data,
    answer = inr res /\ ReadAll res = inr data /\ 200 <= StatusCode res <= 299.

(** The exchange that [Login] of the earlier revision performs. *)
Definition variant_loginExchange (r : variant.LoginRequest.t) : Exchange :=
  ({| Timeout := 5 * Second |},
   jsonRequest "POST" "https://plasso.com/api/service/login"
     (JObject [("public_key", JString (variant.LoginRequest.PublicKey r));
               ("email", JString (variant.LoginRequest.Email r));
               ("password", JString (variant.LoginRequest.Password r))])).

(** The method and path of every call of [sendRequest] in the package, in
    either revision: [Login], [UpdateSettings], [UpdateCreditCard],
    [CreatePayment], [CreateSubscription], [Delete], [Logout]. *)
Definition sendRequest_calls : list (string * string) :=
  [("POST", "/api/service/login");
   ("POST", "/api/services/user?action=settings");
   ("POST", "/api/services/user?action=cc");
   ("POST", "/api/payments");
   ("POST", "/api/subscriptions");
   ("DELETE", "/api/service/user");
   ("POST", "/api/service/logout")].

(** Run from [s], [c] performs exactly one exchange, through a client whose
    timeout is [t]. *)
Definition sends_one {O A} (t : Z) (c : M O A) (s : State O) : Prop :=
  exists req, wire (c s).2 = wire s ++ [({| Timeout := t |}, req)].

(** * Properties *)

(** ** The library model *)

Lemma validMethod_nonempty method :
  validMethod method = true -> method <> EmptyString.
Proof.
  unfold validMethod. intros Hv ->. discriminate Hv.
Qed.

(** [http.NewRequest] on a token method and a URL without control bytes. *)
Lemma http_NewRequest_valid method url body :
  validMethod method = true ->
  stringContainsCTLByte url = false ->
  http_NewRequest method url body =
    inr {| Method := method; URL := url; Header := ∅; Body := body |}.
Proof.
  intros Hm Hu. unfold http_NewRequest.
  pose proof (validMethod_nonempty _ Hm) as Hne.
  rewrite bool_decide_eq_false_2 by exact Hne.
  rewrite Hm, Hu. reflexivity.
Qed.

Lemma Header_Get_Set key v req :
  Header_Get key (Header_Set key v req) = Some v.
Proof.
  unfold Header_Get, Header_Set. simpl. rewrite lookup_insert_eq. reflexivity.
Qed.

(** The status test of [flexkit.go] is the 2xx range. *)
Lemma status_test_299 (status : Z) :
  (status <? 200) || (status >? 299) = false <-> 200 <= status <= 299.
Proof.
  rewrite orb_false_iff, Z.ltb_ge, Z.gtb_ltb, Z.ltb_ge. lia.
Qed.

(** ** What the encoder writes for the structs of the package *)

Lemma collect_inr {A B} (f : A -> error + B) (g : A -> B) xs :
  (forall x, f x = inr (g x)) -> collect (List.map f xs) = inr (List.map g xs).
Proof.
  intros Hf. induction xs as [|x xs IH]; simpl; [reflexivity|].
  rewrite Hf, IH. reflexivity.
Qed.

(** A slice whose elements encode, encodes: [null] when nil, an array
    otherwise. *)
Lemma Marshal_slice {T} `{!Reflect T} (g : T -> json) (xs : option (list T)) :
  (forall x, Marshal (reflect x) = inr (g x)) ->
  Marshal (reflect xs) = inr match xs with
                             | None => JNull
                             | Some l => JArray (List.map g l)
                             end.
Proof.
  intros Hg. destruct xs as [l|]; [|reflexivity].
  unfold reflect at 1, Reflect_slice. simpl.
  rewrite List.map_map, (collect_inr _ g) by exact Hg. reflexivity.
Qed.

Lemma Marshal_DataItem d : Marshal (reflect d) = inr (DataItem_json d).
Proof. reflexivity. Qed.

Lemma Marshal_Product p : Marshal (reflect p) = inr (Product_json p).
Proof. reflexivity. Qed.

Lemma LoginRequest_encodes (r : flexkit.LoginRequest.t) :
  json_Marshal r =
    inr (JObject [("public_key", JString (flexkit.LoginRequest.PublicKey r));
                  ("email", JString (flexkit.LoginRequest.Email r));
                  ("password", JString (flexkit.LoginRequest.Password r))]).
Proof. reflexivity. Qed.

(** The nine exported fields of [SettingsRequest] are written; [token] is
    not. *)
Lemma SettingsRequest_encodes (r : flexkit.SettingsRequest.t) :
  json_Marshal r =
    inr (JObject [("email", JString (flexkit.SettingsRequest.Email r));
                  ("name", JString (flexkit.SettingsRequest.Name r));
                  ("shipping_name", JString (flexkit.SettingsRequest.ShippingName r));
                  ("shipping_address", JString (flexkit.SettingsRequest.ShippingAddress r));
                  ("shipping_city", JString (flexkit.SettingsRequest.ShippingCity r));
                  ("shipping_state", JString (flexkit.SettingsRequest.ShippingState r));
                  ("shipping_zip", JString (flexkit.SettingsRequest.ShippingZip r));
                  ("shipping_country", JString (flexkit.SettingsRequest.ShippingCountry r));
                  ("shipping_options", JString (flexkit.SettingsRequest.ShippingOptions r))]).
Proof. reflexivity. Qed.

(** The four exported fields of [CreditCardRequest] are written;
    [memberToken] is not. *)
Lemma CreditCardRequest_encodes (r : flexkit.CreditCardRequest.t) :
  json_Marshal r =
    inr (JObject [("cc_last_4", JString (flexkit.CreditCardRequest.Last4 r));
                  ("cc_type", JString (flexkit.CreditCardRequest.Type_ r));
                  ("plan", JString (flexkit.CreditCardRequest.PlanId r));
                  ("token", JString (flexkit.CreditCardRequest.Token r))]).
Proof. reflexivity. Qed.

Lemma variant_CreditCardRequest_encodes (r : variant.CreditCardRequest.t) :
  json_Marshal r =
    inr (JObject [("cc_last_4", JString (variant.CreditCardRequest.Last4 r));
                  ("cc_type", JString (variant.CreditCardRequest.Type_ r));
                  ("plan", JNumber (variant.CreditCardRequest.PlanId r));
                  ("token", JString (variant.CreditCardRequest.Token r))]).
Proof. reflexivity. Qed.

(** A [PaymentRequest] always encodes, to an object. *)
Lemma PaymentRequest_encodes (r : flexkit.PaymentRequest.t) :
  exists members, json_Marshal r = inr (JObject members).
Proof.
  unfold json_Marshal.
  unfold reflect at 1, flexkit.PaymentRequest.Reflect_PaymentRequest.
  pose proof (Marshal_slice Product_json (flexkit.PaymentRequest.Products r)
                Marshal_Product) as HP.
  pose proof (Marshal_slice DataItem_json (flexkit.PaymentRequest.DataFields r)
                Marshal_DataItem) as HD.
  simpl. simpl in HP, HD. rewrite HP, HD. eexists. reflexivity.
Qed.

(** In flexkit.go the first member written for a [SubscriptionRequest] is
    [subscription_for]. *)
Lemma SubscriptionRequest_encodes (r : flexkit.SubscriptionRequest.t) :
  exists rest,
    json_Marshal r =
      inr (JObject (("subscription_for",
                     JString (flexkit.SubscriptionRequest.SubscriptionFor r)) :: rest)).
Proof.
  unfold json_Marshal.
  unfold reflect at 1, flexkit.SubscriptionRequest.Reflect_SubscriptionRequest.
  pose proof (Marshal_slice DataItem_json (flexkit.SubscriptionRequest.DataFields r)
                Marshal_DataItem) as HD.
  simpl. simpl in HD. rewrite HD. eexists. reflexivity.
Qed.

(** In the earlier revision no member of that name is written. *)
Lemma variant_SubscriptionRequest_encodes (r : variant.SubscriptionRequest.t) :
  exists members,
    json_Marshal r = inr (JObject members) /\ assoc "subscription_for" members = None.
Proof.
  unfold json_Marshal.
  unfold reflect at 1, variant.SubscriptionRequest.Reflect_SubscriptionRequest_variant.
  pose proof (Marshal_slice DataItem_json (variant.SubscriptionRequest.DataFields r)
                Marshal_DataItem) as HD.
  simpl. simpl in HD. rewrite HD. eexists. split; reflexivity.
Qed.

Lemma gqlQuery_encodes query variables :
  json_Marshal (flexkit.gqlQuery.mk query variables) =
    inr (JObject [("query", JString query); ("variables", variables_json variables)]).
Proof. destruct variables; reflexivity. Qed.

Lemma plasso_gqlQuery_encodes query :
  json_Marshal (plasso.gqlQuery.mk query) = inr (JObject [("query", JString query)]).
Proof. reflexivity. Qed.

(** ** [sendRequest] and [graphQL] of flexkit.go *)

Ltac run_monad :=
  unfold mbind, M_bind, mret, M_ret, client_Do, new, load, panic; simpl.

Section flexkit_transport.
Context (world : World).

(** One run of [sendRequest] whose request encodes and is well formed: one
    exchange goes out, through a client with a 30 second timeout, and the
    result is read off the answer. *)
Lemma flexkit_sendRequest_run {T} `{!Reflect T} kind path (request : T) body
    (s : State flexkit.object) :
  json_Marshal request = inr body ->
  validMethod kind = true ->
  stringContainsCTLByte (flexkit.domain +:+ path) = false ->
  let url := flexkit.domain +:+ path in
  let ex := ({| Timeout := 30 * Second |}, jsonRequest kind url body) in
  flexkit.sendRequest world kind path request s =
    (Ok match world (wire s) ex with
        | inl err => (None, Some err)
        | inr res =>
            match ReadAll res with
            | inl err => (None, Some err)
            | inr responseBody =>
                if (StatusCode res <? 200) || (StatusCode res >? 299) then
                  (Some responseBody,
                   Some (errors_New (kind +:+ " " +:+ pretty (StatusCode res) +:+ " "
                                          +:+ url +:+ " " +:+ responseBody)))
                else (Some responseBody, None)
            end
        end,
     mkState (heap s) (wire s ++ [ex])).
Proof.
  intros HM Hk Hu url ex. unfold flexkit.sendRequest.
  rewrite HM, (http_NewRequest_valid _ _ _ Hk Hu).
  run_monad. fold url. fold (jsonRequest kind url body). fold ex.
  destruct (world (wire s) ex) as [err|res]; [reflexivity|].
  destruct (ReadAll res) as [err|responseBody]; [reflexivity|].
  destruct ((StatusCode res <? 200) || (StatusCode res >? 299)); reflexivity.
Qed.

End flexkit_transport.

Lemma http_NewRequest_inr method url body req :
  http_NewRequest method url body = inr req ->
  URL req = url /\ Body req = body /\ Header req = ∅.
Proof.
  unfold http_NewRequest.
  destruct (negb (validMethod _)); [discriminate|].
  destruct (stringContainsCTLByte url); [discriminate|].
  intros [= <-]. auto.
Qed.

Section flexkit_frame.
Context (world : World).

(** Whatever it is given, [sendRequest] returns, leaves the heap alone and
    performs at most one exchange: through a client with a 30 second timeout,
    to the domain followed by [path], with the JSON content type. *)
Lemma flexkit_sendRequest_frame {T} `{!Reflect T} kind path (request : T)
    (s : State flexkit.object) :
  let r := flexkit.sendRequest world kind path request s in
  (exists body err, r.1 = Ok (body, err)) /\
  heap r.2 = heap s /\
  (wire r.2 = wire s \/
   exists req, wire r.2 = wire s ++ [({| Timeout := 30 * Second |}, req)] /\
               URL req = flexkit.domain +:+ path /\
               Header_Get "Content-Type" req = Some "application/json").
Proof.
  unfold flexkit.sendRequest.
  destruct (json_Marshal request) as [err|body]; [simpl; eauto 6|].
  destruct (http_NewRequest kind _ body) as [err|req] eqn:Hreq; [simpl; eauto 6|].
  apply http_NewRequest_inr in Hreq as (Hurl & _ & _).
  run_monad.
  match goal with |- context [world ?w ?ex] => destruct (world w ex) as [err|res] end.
  { simpl. repeat split; eauto. right. eexists. split; [reflexivity|].
    split; [exact Hurl | apply Header_Get_Set]. }
  destruct (ReadAll res) as [err|responseBody].
  { simpl. repeat split; eauto. right. eexists. split; [reflexivity|].
    split; [exact Hurl | apply Header_Get_Set]. }
  destruct ((StatusCode res <? 200) || (StatusCode res >? 299)).
  all: simpl; repeat split; eauto; right; eexists; (split; [reflexivity|]);
    (split; [exact Hurl | apply Header_Get_Set]).
Qed.

(** One run of [graphQL]: the query always encodes, so exactly one exchange
    goes out, through a client with a 15 second timeout; the status code of
    the answer is not looked at. *)
Lemma flexkit_graphQL_run {T} `{!Unmarshal T} query variables
    (s : State flexkit.object) :
  let body := JObject [("query", JString query); ("variables", variables_json variables)] in
  let ex := ({| Timeout := 15 * Second |},
             jsonRequest "POST" "https://plasso.com/graphql" body) in
  flexkit.graphQL (T:=T) world query variables s =
    (Ok match world (wire s) ex with
        | inl err => inl err
        | inr res =>
            match ReadAll res with
            | inl err => inl err
            | inr responseBody => json_Unmarshal responseBody
            end
        end,
     mkState (heap s) (wire s ++ [ex])).
Proof.
  intros body ex. unfold flexkit.graphQL.
  rewrite gqlQuery_encodes.
  rewrite http_NewRequest_valid by reflexivity.
  run_monad. fold body.
  change (Header_Set _ _ _) with (jsonRequest "POST" "https://plasso.com/graphql" body).
  fold ex.
  destruct (world (wire s) ex) as [err|res]; [reflexivity|].
  destruct (ReadAll res) as [err|responseBody]; reflexivity.
Qed.

End flexkit_frame.

(** ** [sendRequest] of the earlier revision, and [New] of package plasso *)

Section variant_transport.
Context (world : World).

Lemma variant_sendRequest_run {T} `{!Reflect T} kind path (request : T) body
    (s : State variant.object) :
  json_Marshal request = inr body ->
  validMethod kind = true ->
  stringContainsCTLByte (variant.domain +:+ path) = false ->
  let url := variant.domain +:+ path in
  let ex := ({| Timeout := 5 * Second |}, jsonRequest kind url body) in
  variant.sendRequest world kind path request s =
    (Ok match world (wire s) ex with
        | inl err => (None, Some err)
        | inr res =>
            match ReadAll res with
            | inl err => (None, Some err)
            | inr responseBody =>
                if (StatusCode res <? 200) || (StatusCode res >? 300) then
                  (Some responseBody,
                   Some (errors_New (kind +:+ " " +:+ pretty (StatusCode res) +:+ " "
                                          +:+ url +:+ " " +:+ responseBody)))
                else (Some responseBody, None)
            end
        end,
     mkState (heap s) (wire s ++ [ex])).
Proof.
  intros HM Hk Hu url ex. unfold variant.sendRequest.
  rewrite HM, (http_NewRequest_valid _ _ _ Hk Hu).
  run_monad. fold url. fold (jsonRequest kind url body). fold ex.
  destruct (world (wire s) ex) as [err|res]; [reflexivity|].
  destruct (ReadAll res) as [err|responseBody]; [reflexivity|].
  destruct ((StatusCode res <? 200) || (StatusCode res >? 300)); reflexivity.
Qed.

Lemma variant_sendRequest_frame {T} `{!Reflect T} kind path (request : T)
    (s : State variant.object) :
  let r := variant.sendRequest world kind path request s in
  (exists body err, r.1 = Ok (body, err)) /\
  heap r.2 = heap s /\
  (wire r.2 = wire s \/
   exists req, wire r.2 = wire s ++ [({| Timeout := 5 * Second |}, req)] /\
               URL req = variant.domain +:+ path /\
               Header_Get "Content-Type" req = Some "application/json").
Proof.
  unfold variant.sendRequest.
  destruct (json_Marshal request) as [err|body]; [simpl; eauto 6|].
  destruct (http_NewRequest kind _ body) as [err|req] eqn:Hreq; [simpl; eauto 6|].
  apply http_NewRequest_inr in Hreq as (Hurl & _ & _).
  run_monad.
  match goal with |- context [world ?w ?ex] => destruct (world w ex) as [err|res] end.
  { simpl. repeat split; eauto. right. eexists. split; [reflexivity|].
    split; [exact Hurl | apply Header_Get_Set]. }
  destruct (ReadAll res) as [err|responseBody].
  { simpl. repeat split; eauto. right. eexists. split; [reflexivity|].
    split; [exact Hurl | apply Header_Get_Set]. }
  destruct ((StatusCode res <? 200) || (StatusCode res >? 300)).
  all: simpl; repeat split; eauto; right; eexists; (split; [reflexivity|]);
    (split; [exact Hurl | apply Header_Get_Set]).
Qed.

End variant_transport.

Section plasso_transport.
Context (world : World) `{!Unmarshal plasso.gqlResponse.t}.

(** [New] always performs exactly one exchange, through a client with a one
    second timeout. *)
Lemma plasso_New_wire token (s : State plasso.plasso.t) :
  exists req,
    wire (plasso.New world token s).2 = wire s ++ [({| Timeout := 1 * Second |}, req)]
    /\ URL req = "https://api.plasso.com".
Proof.
  unfold plasso.New. rewrite plasso_gqlQuery_encodes.
  rewrite http_NewRequest_valid by reflexivity.
  run_monad.
  match goal with |- context [world ?w ?ex] => destruct (world w ex) as [err|res] end;
    [simpl; eauto|].
  destruct (ReadAll res) as [err|responseBody]; [simpl; eauto|].
  destruct (json_Unmarshal responseBody) as [err|r]; simpl; eauto.
Qed.

End plasso_transport.

(** ** Running the operations *)

Lemma bind_run {O A B} (c : M O A) (f : A -> M O B) s a s' :
  c s = (Ok a, s') -> (c ≫= f) s = f a s'.
Proof. intros Hc. unfold mbind, M_bind. rewrite Hc. reflexivity. Qed.

Lemma flexkit_load_Member_ok (s : State flexkit.object) l m :
  heap s !! l = Some (flexkit.OMember m) ->
  flexkit.load_Member (Some l) s = (Ok m, s).
Proof.
  intros Hl. unfold flexkit.load_Member, load, mbind, M_bind. rewrite Hl. reflexivity.
Qed.

Lemma variant_load_Member_ok (s : State variant.object) l m :
  heap s !! l = Some (variant.OMember m) ->
  variant.load_Member (Some l) s = (Ok m, s).
Proof.
  intros Hl. unfold variant.load_Member, load, mbind, M_bind. rewrite Hl. reflexivity.
Qed.

Lemma sortedKeys_singleton (k v : string) :
  sortedKeys {[ k := v ]} = [(k, v)].
Proof. unfold sortedKeys. rewrite map_to_list_singleton. reflexivity. Qed.

Section flexkit_GetData.
Context (world : World) `{!Unmarshal flexkit.memberDataResponse.t}.

(** [GetData] on a live member performs exactly that exchange, whatever
    comes back. *)
Lemma flexkit_GetData_wire (s : State flexkit.object) l m :
  heap s !! l = Some (flexkit.OMember m) ->
  wire (flexkit.GetData world (Some l) s).2 = wire s ++ [getMemberExchange m].
Proof.
  intros Hl. unfold flexkit.GetData.
  rewrite (bind_run _ _ _ _ _ (flexkit_load_Member_ok _ _ _ Hl)).
  erewrite bind_run; cycle 1.
  { rewrite flexkit_graphQL_run. unfold variables_json.
    rewrite sortedKeys_singleton. reflexivity. }
  match goal with
  | |- context [world (wire s) ?e] => change e with (getMemberExchange m)
  end.
  destruct (world (wire s) (getMemberExchange m)) as [err|res]; [reflexivity|].
  destruct (ReadAll res) as [err|data]; [reflexivity|].
  destruct (json_Unmarshal data) as [err|response]; reflexivity.
Qed.

(** When the body of the answer decodes, [GetData] allocates a [MemberData]
    filled from it and returns its address with a nil error.  The status
    code of the answer plays no part. *)
Lemma flexkit_GetData_decoded (s : State flexkit.object) l m res data response :
  heap s !! l = Some (flexkit.OMember m) ->
  world (wire s) (getMemberExchange m) = inr res ->
  ReadAll res = inr data ->
  json_Unmarshal data = inr response ->
  let rm := flexkit.memberDataResponse.Data.Member (flexkit.memberDataResponse.Data response) in
  let si := flexkit.memberDataResponse.Member.ShippingInfo rm in
  let p := fresh (dom (heap s)) in
  exists d,
    flexkit.GetData world (Some l) s =
      (Ok (Some p, None),
       mkState (<[p := flexkit.OMemberData d]> (heap s)) (wire s ++ [getMemberExchange m]))
    /\ flexkit.MemberData.Id d = flexkit.memberDataResponse.Member.Id rm
    /\ flexkit.MemberData.Name d = flexkit.memberDataResponse.Member.Name rm
    /\ flexkit.MemberData.Email d = flexkit.memberDataResponse.Member.Email rm
    /\ flexkit.MemberData.CreditCardLast4 d = flexkit.memberDataResponse.Member.CcLast4 rm
    /\ flexkit.MemberData.CreditCardType d = flexkit.memberDataResponse.Member.CcType rm
    /\ flexkit.MemberData.ShippingName d = flexkit.memberDataResponse.ShippingInfo.Name si
    /\ flexkit.MemberData.ShippingAddress d = flexkit.memberDataResponse.ShippingInfo.Address si
    /\ flexkit.MemberData.ShippingCity d = flexkit.memberDataResponse.ShippingInfo.City si
    /\ flexkit.MemberData.ShippingState d = flexkit.memberDataResponse.ShippingInfo.State si
    /\ flexkit.MemberData.ShippingZip d = flexkit.memberDataResponse.ShippingInfo.Zip si
    /\ flexkit.MemberData.ShippingCountry d = flexkit.memberDataResponse.ShippingInfo.Country si
    /\ flexkit.MemberData.DataFields d = flexkit.memberDataResponse.Member.DataFields rm
    /\ flexkit.MemberData.Plan d =
         flexkit.memberDataResponse.Plan.Alias (flexkit.memberDataResponse.Member.Plan rm).
Proof.
  intros Hl Hw Hr Hu rm si p. unfold flexkit.GetData.
  rewrite (bind_run _ _ _ _ _ (flexkit_load_Member_ok _ _ _ Hl)).
  erewrite bind_run; cycle 1.
  { rewrite flexkit_graphQL_run. unfold variables_json.
    rewrite sortedKeys_singleton. reflexivity. }
  match goal with
  | |- context [world (wire s) ?e] => change e with (getMemberExchange m)
  end.
  rewrite Hw, Hr, Hu.
  eexists. split; [reflexivity|]. simpl. repeat split; reflexivity.
Qed.

End flexkit_GetData.

(** ** Frame properties, by the structure of a computation *)

Section frame_rules.
Context {O : Type}.

Lemma keeps_ret {A} (a : A) : keeps_cells (O:=O) (mret a).
Proof. intros s l o Hl. exact Hl. Qed.

Lemma keeps_panic {A} msg : keeps_cells (O:=O) (A:=A) (panic msg).
Proof. intros s l o Hl. exact Hl. Qed.

Lemma keeps_bind {A B} (c : M O A) (f : A -> M O B) :
  keeps_cells c -> (forall a, keeps_cells (f a)) -> keeps_cells (c ≫= f).
Proof.
  intros Hc Hf s l o Hl. unfold mbind, M_bind.
  specialize (Hc s l o Hl).
  destruct (c s) as [[a|msg] s']; simpl in *; [|exact Hc].
  apply Hf, Hc.
Qed.

Lemma keeps_load p : keeps_cells (O:=O) (load p).
Proof.
  intros s l o Hl. unfold load.
  destruct p as [l'|]; [|exact Hl]. destruct (heap s !! l'); exact Hl.
Qed.

(** Allocation picks an address that is not in use. *)
Lemma keeps_new (x : O) : keeps_cells (new x).
Proof.
  intros s l o Hl. unfold new. simpl.
  rewrite lookup_insert_ne; [exact Hl|].
  intros Heq. pose proof (is_fresh (dom (heap s))) as Hf.
  rewrite Heq in Hf. apply Hf, elem_of_dom. eauto.
Qed.

Lemma keeps_client_Do world client req : keeps_cells (O:=O) (client_Do world client req).
Proof. intros s l o Hl. exact Hl. Qed.

Lemma satisfy_ret {A} P (a : A) : exchanges_satisfy (O:=O) P (mret a).
Proof. intros s. exists []. split; [symmetry; apply app_nil_r | constructor]. Qed.

Lemma satisfy_panic {A} P msg : exchanges_satisfy (O:=O) (A:=A) P (panic msg).
Proof. intros s. exists []. split; [symmetry; apply app_nil_r | constructor]. Qed.

Lemma satisfy_bind {A B} P (c : M O A) (f : A -> M O B) :
  exchanges_satisfy P c -> (forall a, exchanges_satisfy P (f a)) ->
  exchanges_satisfy P (c ≫= f).
Proof.
  intros Hc Hf s. unfold mbind, M_bind.
  destruct (Hc s) as (sent1 & Hw1 & HP1).
  destruct (c s) as [[a|msg] s']; simpl in *; [|eauto].
  destruct (Hf a s') as (sent2 & Hw2 & HP2).
  exists (sent1 ++ sent2). split; [|apply Forall_app; auto].
  rewrite Hw2, Hw1, app_assoc. reflexivity.
Qed.

Lemma satisfy_load P p : exchanges_satisfy (O:=O) P (load p).
Proof.
  intros s. exists []. split; [|constructor]. unfold load.
  destruct p as [l'|]; [destruct (heap s !! l')|]; symmetry; apply app_nil_r.
Qed.

Lemma satisfy_new P (x : O) : exchanges_satisfy P (new x).
Proof. intros s. exists []. split; [symmetry; apply app_nil_r | constructor]. Qed.

Lemma satisfy_client_Do (P : Exchange -> Prop) world client req :
  P (client, req) -> exchanges_satisfy (O:=O) P (client_Do world client req).
Proof. intros HP s. exists [(client, req)]. split; [reflexivity | repeat constructor; exact HP]. Qed.

End frame_rules.

Create HintDb frame discriminated.
#[export] Hint Resolve keeps_ret keeps_panic keeps_load keeps_new keeps_client_Do
  satisfy_ret satisfy_panic satisfy_load satisfy_new : frame.

(** Walks through a computation: binds, then the case analyses of the code. *)
Ltac frame_step :=
  match goal with
  | |- keeps_cells (_ ≫= _) => apply keeps_bind; [|intros ?]
  | |- exchanges_satisfy _ (_ ≫= _) => apply satisfy_bind; [|intros ?]
  | |- exchanges_satisfy _ (client_Do _ _ _) => apply satisfy_client_Do; simpl
  | |- keeps_cells (match ?x with _ => _ end) => destruct x
  | |- exchanges_satisfy _ (match ?x with _ => _ end) => destruct x
  | |- keeps_cells (if ?x then _ else _) => destruct x
  | |- exchanges_satisfy _ (if ?x then _ else _) => destruct x
  | |- keeps_cells (let '(_, _) := ?x in _) => destruct x
  | |- exchanges_satisfy _ (let '(_, _) := ?x in _) => destruct x
  | |- _ => solve [auto with frame]
  end.

Ltac frame := repeat frame_step.

Section flexkit_frames.
Context (world : World).
Context `{!Unmarshal flexkit.tokenResponse.t} `{!Unmarshal flexkit.memberDataResponse.t}.

Lemma flexkit_load_Member_keeps p : keeps_cells (flexkit.load_Member p).
Proof. unfold flexkit.load_Member. frame. Qed.

Lemma flexkit_sendRequest_keeps {T} `{!Reflect T} kind path (request : T) :
  keeps_cells (flexkit.sendRequest world kind path request).
Proof. unfold flexkit.sendRequest. frame. Qed.

Lemma flexkit_graphQL_keeps {T} `{!Unmarshal T} query variables :
  keeps_cells (flexkit.graphQL (T:=T) world query variables).
Proof. unfold flexkit.graphQL. frame. Qed.

Lemma flexkit_sendRequest_timeout {T} `{!Reflect T} kind path (request : T) :
  exchanges_satisfy (fun ex => Timeout ex.1 = 30 * Second)
    (flexkit.sendRequest world kind path request).
Proof. unfold flexkit.sendRequest. frame. Qed.

Lemma flexkit_graphQL_timeout {T} `{!Unmarshal T} query variables :
  exchanges_satisfy (fun ex => Timeout ex.1 = 15 * Second)
    (flexkit.graphQL (T:=T) world query variables).
Proof. unfold flexkit.graphQL. frame. Qed.

End flexkit_frames.

Section variant_frames.
Context (world : World).

Lemma variant_load_Member_keeps p : keeps_cells (variant.load_Member p).
Proof. unfold variant.load_Member. frame. Qed.

Lemma variant_sendRequest_keeps {T} `{!Reflect T} kind path (request : T) :
  keeps_cells (variant.sendRequest world kind path request).
Proof. unfold variant.sendRequest. frame. Qed.

Lemma variant_sendRequest_timeout {T} `{!Reflect T} kind path (request : T) :
  exchanges_satisfy (fun ex => Timeout ex.1 = 5 * Second)
    (variant.sendRequest world kind path request).
Proof. unfold variant.sendRequest. frame. Qed.

End variant_frames.

Lemma plasso_New_timeout world `{!Unmarshal plasso.gqlResponse.t} token :
  exchanges_satisfy (fun ex => Timeout ex.1 = 1 * Second) (plasso.New world token).
Proof. unfold plasso.New. frame. Qed.

Lemma satisfy_weaken {O A} (P Q : Exchange -> Prop) (c : M O A) :
  (forall ex, P ex -> Q ex) -> exchanges_satisfy P c -> exchanges_satisfy Q c.
Proof.
  intros HPQ Hc s. destruct (Hc s) as (sent & Hw & HP).
  exists sent. split; [exact Hw|]. eapply Forall_impl; eauto.
Qed.

Lemma flexkit_sendRequest_bounds world {T} `{!Reflect T} kind path (request : T) :
  exchanges_satisfy timeout_in_bounds (flexkit.sendRequest world kind path request).
Proof.
  eapply satisfy_weaken; [|apply flexkit_sendRequest_timeout].
  intros ex Hex. unfold timeout_in_bounds. rewrite Hex. unfold Second. lia.
Qed.

Lemma flexkit_graphQL_bounds world {T} `{!Unmarshal T} query variables :
  exchanges_satisfy timeout_in_bounds (flexkit.graphQL (T:=T) world query variables).
Proof.
  eapply satisfy_weaken; [|apply flexkit_graphQL_timeout].
  intros ex Hex. unfold timeout_in_bounds. rewrite Hex. unfold Second. lia.
Qed.

Lemma variant_sendRequest_bounds world {T} `{!Reflect T} kind path (request : T) :
  exchanges_satisfy timeout_in_bounds (variant.sendRequest world kind path request).
Proof.
  eapply satisfy_weaken; [|apply variant_sendRequest_timeout].
  intros ex Hex. unfold timeout_in_bounds. rewrite Hex. unfold Second. lia.
Qed.

Lemma plasso_New_bounds world `{!Unmarshal plasso.gqlResponse.t} token :
  exchanges_satisfy timeout_in_bounds (plasso.New world token).
Proof.
  eapply satisfy_weaken; [|apply plasso_New_timeout].
  intros ex Hex. unfold timeout_in_bounds. rewrite Hex. unfold Second. lia.
Qed.

#[export] Hint Resolve flexkit_load_Member_keeps flexkit_sendRequest_keeps
  flexkit_graphQL_keeps variant_load_Member_keeps variant_sendRequest_keeps
  flexkit_sendRequest_bounds flexkit_graphQL_bounds variant_sendRequest_bounds : frame.

(** ** What each operation puts on the wire *)

Lemma wire_bind_silent {O A B} (c : M O A) (f : A -> M O B) s :
  (forall a, exchanges_satisfy (fun _ => False) (f a)) ->
  wire ((c ≫= f) s).2 = wire (c s).2.
Proof.
  intros Hf. unfold mbind, M_bind.
  destruct (c s) as [[a|msg] s']; simpl; [|reflexivity].
  destruct (Hf a s') as (sent & Hw & HF).
  destruct sent as [|ex sent]; [rewrite app_nil_r in Hw; exact Hw|].
  inversion HF; contradiction.
Qed.

Section flexkit_wire.
Context (world : World).
Context `{!Unmarshal flexkit.tokenResponse.t}.

Lemma flexkit_sendRequest_wire {T} `{!Reflect T} kind path (request : T) body
    (s : State flexkit.object) :
  json_Marshal request = inr body ->
  validMethod kind = true ->
  stringContainsCTLByte (flexkit.domain +:+ path) = false ->
  wire (flexkit.sendRequest world kind path request s).2 =
    wire s ++ [({| Timeout := 30 * Second |},
                jsonRequest kind (flexkit.domain +:+ path) body)].
Proof.
  intros HM Hk Hu. rewrite (flexkit_sendRequest_run world _ _ _ _ _ HM Hk Hu).
  reflexivity.
Qed.

Lemma flexkit_Login_wire request (s : State flexkit.object) :
  exists body,
    json_Marshal request = inr body /\
    wire (flexkit.Login world request s).2 =
      wire s ++ [({| Timeout := 30 * Second |},
                  jsonRequest "POST" "https://plasso.com/api/service/login" body)].
Proof.
  eexists. split; [apply LoginRequest_encodes|].
  unfold flexkit.Login.
  rewrite wire_bind_silent by (intros [b e]; frame).
  apply flexkit_sendRequest_wire; reflexivity.
Qed.

Lemma flexkit_CreatePayment_wire request (s : State flexkit.object) :
  exists body,
    json_Marshal request = inr body /\
    wire (flexkit.CreatePayment world request s).2 =
      wire s ++ [({| Timeout := 30 * Second |},
                  jsonRequest "POST" "https://plasso.com/api/payments" body)].
Proof.
  destruct (PaymentRequest_encodes request) as [members HM].
  eexists. split; [exact HM|].
  unfold flexkit.CreatePayment.
  rewrite wire_bind_silent by (intros [b e]; frame).
  apply flexkit_sendRequest_wire; [exact HM | reflexivity | reflexivity].
Qed.

(** The body that [CreateSubscription] posts starts with
    [subscription_for], set to [space]. *)
Lemma flexkit_CreateSubscription_wire request (s : State flexkit.object) :
  exists rest,
    wire (flexkit.CreateSubscription world request s).2 =
      wire s ++ [({| Timeout := 30 * Second |},
                  jsonRequest "POST" "https://plasso.com/api/subscriptions"
                    (JObject (("subscription_for", JString "space") :: rest)))].
Proof.
  destruct (SubscriptionRequest_encodes
              (flexkit.SubscriptionRequest.set_SubscriptionFor "space" request))
    as [rest HM].
  exists rest. unfold flexkit.CreateSubscription.
  rewrite wire_bind_silent by (intros [b e]; frame).
  apply flexkit_sendRequest_wire; [exact HM | reflexivity | reflexivity].
Qed.

(** The body that [UpdateSettings] posts is the encoding of the request
    after [request.token = member.Token]. *)
Lemma flexkit_UpdateSettings_wire request (s : State flexkit.object) l m :
  heap s !! l = Some (flexkit.OMember m) ->
  exists body,
    json_Marshal (flexkit.SettingsRequest.set_token (flexkit.Member.Token m) request)
      = inr body /\
    wire (flexkit.UpdateSettings world (Some l) request s).2 =
      wire s ++ [({| Timeout := 30 * Second |},
                  jsonRequest "POST" "https://plasso.com/api/services/user?action=settings"
                    body)].
Proof.
  intros Hl. eexists. split; [apply SettingsRequest_encodes|].
  unfold flexkit.UpdateSettings.
  rewrite (bind_run _ _ _ _ _ (flexkit_load_Member_ok _ _ _ Hl)).
  rewrite wire_bind_silent by (intros [b e]; frame).
  apply flexkit_sendRequest_wire; reflexivity.
Qed.

Lemma flexkit_UpdateCreditCard_wire request (s : State flexkit.object) l m :
  heap s !! l = Some (flexkit.OMember m) ->
  exists body,
    json_Marshal (flexkit.CreditCardRequest.set_memberToken (flexkit.Member.Token m) request)
      = inr body /\
    wire (flexkit.UpdateCreditCard world (Some l) request s).2 =
      wire s ++ [({| Timeout := 30 * Second |},
                  jsonRequest "POST" "https://plasso.com/api/services/user?action=cc" body)].
Proof.
  intros Hl. eexists. split; [apply CreditCardRequest_encodes|].
  unfold flexkit.UpdateCreditCard.
  rewrite (bind_run _ _ _ _ _ (flexkit_load_Member_ok _ _ _ Hl)).
  rewrite wire_bind_silent by (intros [b e]; frame).
  apply flexkit_sendRequest_wire; reflexivity.
Qed.

End flexkit_wire.

Section variant_wire.
Context (world : World).
Context `{!Unmarshal variant.tokenResponse.t}.

Lemma variant_sendRequest_wire {T} `{!Reflect T} kind path (request : T) body
    (s : State variant.object) :
  json_Marshal request = inr body ->
  validMethod kind = true ->
  stringContainsCTLByte (variant.domain +:+ path) = false ->
  wire (variant.sendRequest world kind path request s).2 =
    wire s ++ [({| Timeout := 5 * Second |},
                jsonRequest kind (variant.domain +:+ path) body)].
Proof.
  intros HM Hk Hu. rewrite (variant_sendRequest_run world _ _ _ _ _ HM Hk Hu).
  reflexivity.
Qed.

Lemma variant_UpdateSettings_wire request (s : State variant.object) l m :
  heap s !! l = Some (variant.OMember m) ->
  exists body,
    json_Marshal (variant.SettingsRequest.set_token (variant.Member.Token m) request)
      = inr body /\
    wire (variant.UpdateSettings world (Some l) request s).2 =
      wire s ++ [({| Timeout := 5 * Second |},
                  jsonRequest "POST" "https://plasso.com/api/services/user?action=settings"
                    body)].
Proof.
  intros Hl. eexists. split; [apply SettingsRequest_encodes|].
  unfold variant.UpdateSettings.
  rewrite (bind_run _ _ _ _ _ (variant_load_Member_ok _ _ _ Hl)).
  rewrite wire_bind_silent by (intros [b e]; frame).
  apply variant_sendRequest_wire; reflexivity.
Qed.

Lemma variant_UpdateCreditCard_wire request (s : State variant.object) l m :
  heap s !! l = Some (variant.OMember m) ->
  exists body,
    json_Marshal (variant.CreditCardRequest.set_memberToken (variant.Member.Token m) request)
      = inr body /\
    wire (variant.UpdateCreditCard world (Some l) request s).2 =
      wire s ++ [({| Timeout := 5 * Second |},
                  jsonRequest "POST" "https://plasso.com/api/services/user?action=cc" body)].
Proof.
  intros Hl. eexists. split; [apply variant_CreditCardRequest_encodes|].
  unfold variant.UpdateCreditCard.
  rewrite (bind_run _ _ _ _ _ (variant_load_Member_ok _ _ _ Hl)).
  rewrite wire_bind_silent by (intros [b e]; frame).
  apply variant_sendRequest_wire; reflexivity.
Qed.

(** In the earlier revision the body that [CreateSubscription] posts has no
    member [subscription_for]. *)
Lemma variant_CreateSubscription_wire request (s : State variant.object) :
  exists members,
    assoc "subscription_for" members = None /\
    wire (variant.CreateSubscription world request s).2 =
      wire s ++ [({| Timeout := 5 * Second |},
                  jsonRequest "POST" "https://plasso.com/api/subscriptions"
                    (JObject members))].
Proof.
  destruct (variant_SubscriptionRequest_encodes
              (variant.SubscriptionRequest.set_subscriptionFor "space" request))
    as (members & HM & Hnone).
  exists members. split; [exact Hnone|]. unfold variant.CreateSubscription.
  rewrite wire_bind_silent by (intros [b e]; frame).
  apply variant_sendRequest_wire; [exact HM | reflexivity | reflexivity].
Qed.

End variant_wire.

(** ** The calls of [sendRequest], and the exchanges of the other operations *)

(** On the calls that the package makes, [http.NewRequest] accepts the
    method and the URL. *)
Lemma sendRequest_calls_accepted kind path :
  In (kind, path) sendRequest_calls ->
  validMethod kind = true /\ stringContainsCTLByte (flexkit.domain +:+ path) = false.
Proof.
  unfold sendRequest_calls. intros H.
  repeat (destruct H as [H|H]; [injection H as <- <-; split; reflexivity|]).
  destruct H.
Qed.

Lemma sortedKeys_token_public_key (t pk : string) :
  sortedKeys {[ "token" := t; "public_key" := pk ]} = [("public_key", pk); ("token", t)].
Proof. vm_compute. reflexivity. Qed.

Lemma Delete_request_encodes (t : string) :
  json_Marshal ({[ "token" := t ]} : gmap string string) = inr (JObject [("token", JString t)]).
Proof.
  unfold json_Marshal, reflect, Reflect_map. simpl. rewrite sortedKeys_singleton. reflexivity.
Qed.

Lemma Logout_request_encodes (t pk : string) :
  json_Marshal ({[ "token" := t; "public_key" := pk ]} : gmap string string) =
    inr (JObject [("public_key", JString pk); ("token", JString t)]).
Proof.
  unfold json_Marshal, reflect, Reflect_map. simpl.
  rewrite sortedKeys_token_public_key. reflexivity.
Qed.

Section flexkit_session.
Context (world : World).

Lemma flexkit_Delete_wire (s : State flexkit.object) l m :
  heap s !! l = Some (flexkit.OMember m) ->
  wire (flexkit.Delete world (Some l) s).2 = wire s ++ [deleteExchange m].
Proof.
  intros Hl. unfold flexkit.Delete.
  rewrite (bind_run _ _ _ _ _ (flexkit_load_Member_ok _ _ _ Hl)).
  rewrite wire_bind_silent by (intros [b e]; frame).
  apply flexkit_sendRequest_wire; [apply Delete_request_encodes | reflexivity..].
Qed.

Lemma flexkit_Logout_wire (s : State flexkit.object) l m :
  heap s !! l = Some (flexkit.OMember m) ->
  wire (flexkit.Logout world (Some l) s).2 = wire s ++ [logoutExchange m].
Proof.
  intros Hl. unfold flexkit.Logout.
  rewrite (bind_run _ _ _ _ _ (flexkit_load_Member_ok _ _ _ Hl)).
  rewrite wire_bind_silent by (intros [b e]; frame).
  apply flexkit_sendRequest_wire; [apply Logout_request_encodes | reflexivity..].
Qed.

End flexkit_session.

Section variant_session.
Context (world : World) `{!Unmarshal variant.tokenResponse.t}.

Lemma variant_Login_wire request (s : State variant.object) :
  wire (variant.Login world request s).2 = wire s ++ [variant_loginExchange request].
Proof.
  unfold variant.Login.
  rewrite wire_bind_silent by (intros [b e]; frame).
  apply variant_sendRequest_wire; [apply LoginRequest_encodes | reflexivity..].
Qed.

Lemma variant_CreatePayment_wire request (s : State variant.object) :
  exists body,
    json_Marshal request = inr body /\
    wire (variant.CreatePayment world request s).2 =
      wire s ++ [({| Timeout := 5 * Second |},
                  jsonRequest "POST" "https://plasso.com/api/payments" body)].
Proof.
  destruct (PaymentRequest_encodes request) as [members HM].
  eexists. split; [exact HM|].
  unfold variant.CreatePayment.
  rewrite wire_bind_silent by (intros [b e]; frame).
  apply variant_sendRequest_wire; [exact HM | reflexivity | reflexivity].
Qed.

Lemma variant_Delete_wire (s : State variant.object) l m :
  heap s !! l = Some (variant.OMember m) ->
  wire (variant.Delete world (Some l) s).2 =
    wire s ++ [({| Timeout := 5 * Second |},
                jsonRequest "DELETE" "https://plasso.com/api/service/user"
                  (JObject [("token", JString (variant.Member.Token m))]))].
Proof.
  intros Hl. unfold variant.Delete.
  rewrite (bind_run _ _ _ _ _ (variant_load_Member_ok _ _ _ Hl)).
  rewrite wire_bind_silent by (intros [b e]; frame).
  apply variant_sendRequest_wire; [apply Delete_request_encodes | reflexivity..].
Qed.

Lemma variant_Logout_wire (s : State variant.object) l m :
  heap s !! l = Some (variant.OMember m) ->
  wire (variant.Logout world (Some l) s).2 = wire s ++ [variant_logoutExchange m].
Proof.
  intros Hl. unfold variant.Logout.
  rewrite (bind_run _ _ _ _ _ (variant_load_Member_ok _ _ _ Hl)).
  rewrite wire_bind_silent by (intros [b e]; frame).
  apply variant_sendRequest_wire; [apply Delete_request_encodes | reflexivity..].
Qed.

End variant_session.

(** ** When [sendRequest] reports an error *)

(** On each call that the package makes, with a request that encodes,
    [sendRequest] of flexkit.go returns a nil error exactly when the
    transport answers, the body can be read, and the status code is in
    200..299. *)
Lemma flexkit_sendRequest_error_iff world {T} `{!Reflect T} kind path (request : T) body
    (s : State flexkit.object) :
  In (kind, path) sendRequest_calls ->
  json_Marshal request = inr body ->
  let ex := ({| Timeout := 30 * Second |}, jsonRequest kind (flexkit.domain +:+ path) body) in
  exists data err,
    (flexkit.sendRequest world kind path request s).1 = Ok (data, err) /\
    (err = None <->
     exists res responseBody,
       world (wire s) ex = inr res /\ ReadAll res = inr responseBody /\
       200 <= StatusCode res <= 299).
Proof.
  intros Hcall HM ex. destruct (sendRequest_calls_accepted _ _ Hcall) as [Hk Hu].
  rewrite (flexkit_sendRequest_run world _ _ _ _ _ HM Hk Hu).
  fold ex. simpl.
  destruct (world (wire s) ex) as [e|res].
  { eexists _, _. split; [reflexivity|]. split; [discriminate|].
    intros (? & ? & [=] & _). }
  destruct (ReadAll res) as [e|responseBody] eqn:Hread.
  { eexists _, _. split; [reflexivity|]. split; [discriminate|].
    intros (? & ? & [= <-] & Hr & _). congruence. }
  destruct ((StatusCode res <? 200) || (StatusCode res >? 299)) eqn:Hst.
  - eexists _, _. split; [reflexivity|]. split; [discriminate|].
    intros (? & ? & [= <-] & _ & Hrange). apply status_test_299 in Hrange. congruence.
  - eexists _, _. split; [reflexivity|]. split; [|reflexivity].
    intros _. exists res, responseBody. apply status_test_299 in Hst. auto.
Qed.

(** On each call that the package makes, with a request that encodes,
    [sendRequest] of flexkit.go answers a status code outside 200..299 with
    the body together with an error whose message is the method, the status
    code, the URL and the body, separated by spaces. *)
Lemma flexkit_sendRequest_non_2xx world {T} `{!Reflect T} kind path (request : T) body
    (s : State flexkit.object) status data :
  In (kind, path) sendRequest_calls ->
  json_Marshal request = inr body ->
  world (wire s) ({| Timeout := 30 * Second |},
                  jsonRequest kind (flexkit.domain +:+ path) body)
    = inr {| StatusCode := status; ReadAll := inr data |} ->
  status < 200 \/ 299 < status ->
  (flexkit.sendRequest world kind path request s).1 =
    Ok (Some data,
        Some (errors_New (kind +:+ " " +:+ pretty status +:+ " "
                               +:+ (flexkit.domain +:+ path) +:+ " " +:+ data))).
Proof.
  intros Hcall HM Hw Hst. destruct (sendRequest_calls_accepted _ _ Hcall) as [Hk Hu].
  rewrite (flexkit_sendRequest_run world _ _ _ _ _ HM Hk Hu).
  simpl. rewrite Hw. simpl.
  destruct ((status <? 200) || (status >? 299)) eqn:Htest; [reflexivity|].
  apply status_test_299 in Htest. lia.
Qed.

Lemma flexkit_sendRequest_non_2xx_sample :
  (flexkit.sendRequest (sample.server 300 "Multiple Choices") "POST" "/api/service/login"
     sample.login sample.state).1 =
    Ok (Some "Multiple Choices",
        Some (errors_New "POST 300 https://plasso.com/api/service/login Multiple Choices")).
Proof.
  eapply (flexkit_sendRequest_non_2xx (sample.server 300 "Multiple Choices")
            "POST" "/api/service/login" sample.login _ sample.state 300 "Multiple Choices").
  - left. reflexivity.
  - apply LoginRequest_encodes.
  - reflexivity.
  - right. lia.
Defined.

(** Every method of [Member] keeps every cell of the heap, on any receiver
    and whatever the outcome (a result, an error, a panic on a nil
    receiver); [GetData] of flexkit.go allocates one more. *)
Section methods_keep_cells.
Context (world : World) `{!Unmarshal flexkit.memberDataResponse.t}.

Lemma flexkit_GetData_keeps p : keeps_cells (flexkit.GetData world p).
Proof. unfold flexkit.GetData. frame. Qed.

Lemma flexkit_UpdateSettings_keeps p request :
  keeps_cells (flexkit.UpdateSettings world p request).
Proof. unfold flexkit.UpdateSettings. frame. Qed.

Lemma flexkit_UpdateCreditCard_keeps p request :
  keeps_cells (flexkit.UpdateCreditCard world p request).
Proof. unfold flexkit.UpdateCreditCard. frame. Qed.

Lemma flexkit_Delete_keeps p : keeps_cells (flexkit.Delete world p).
Proof. unfold flexkit.Delete. frame. Qed.

Lemma flexkit_Logout_keeps p : keeps_cells (flexkit.Logout world p).
Proof. unfold flexkit.Logout. frame. Qed.

Lemma variant_GetData_keeps p : keeps_cells (variant.GetData p).
Proof. unfold variant.GetData. frame. Qed.

Lemma variant_UpdateSettings_keeps p request :
  keeps_cells (variant.UpdateSettings world p request).
Proof. unfold variant.UpdateSettings. frame. Qed.

Lemma variant_UpdateCreditCard_keeps p request :
  keeps_cells (variant.UpdateCreditCard world p request).
Proof. unfold variant.UpdateCreditCard. frame. Qed.

Lemma variant_Delete_keeps p : keeps_cells (variant.Delete world p).
Proof. unfold variant.Delete. frame. Qed.

Lemma variant_Logout_keeps p : keeps_cells (variant.Logout world p).
Proof. unfold variant.Logout. frame. Qed.

End methods_keep_cells.

(** ** The two results of [Login] and [CreateSubscription] *)

Lemma bind_result {O A B} (c : M O A) (f : A -> M O B) s a :
  (c s).1 = Ok a -> ((c ≫= f) s).1 = (f a (c s).2).1.
Proof.
  intros Hc. unfold mbind, M_bind.
  destruct (c s) as [r s']. simpl in *. subst r. reflexivity.
Qed.

Ltac xor_cases :=
  repeat match goal with
         | |- pointer_xor_error (match ?x with _ => _ end _).1 => destruct x; simpl
         end;
  unfold pointer_xor_error, mbind, M_bind, mret, M_ret, new; simpl;
  eexists _, _; (split; [reflexivity|]); eauto.

Lemma flexkit_sendRequest_error_iff_sample :
  exists data err,
    (flexkit.sendRequest (sample.server 200 "{}") "POST" "/api/service/login"
       sample.login sample.state).1 = Ok (data, err) /\
    (err = None <->
     exists res responseBody,
       sample.server 200 "{}" []
         ({| Timeout := 30 * Second |},
          jsonRequest "POST" "https://plasso.com/api/service/login"
            (JObject [("public_key", JString "pk_1");
                      ("email", JString "ann@example.com");
                      ("password", JString "secret")])) = inr res /\
       ReadAll res = inr responseBody /\ 200 <= StatusCode res <= 299).
Proof.
  exact (flexkit_sendRequest_error_iff (sample.server 200 "{}") "POST" "/api/service/login"
           sample.login _ sample.state (or_introl eq_refl)
           (LoginRequest_encodes sample.login)).
Defined.

(** [GetData] of the earlier revision is a placeholder: it performs no
    exchange and returns a nil pointer with a nil error. *)
Lemma variant_GetData_placeholder member (s : State variant.object) :
  variant.GetData member s = (Ok (None, None), s).
Proof. reflexivity. Qed.

(** * The claims *)

(** C1 (the code departs from it).  The claim has every operation return an
    error on a status code outside 2xx, [Member.GetData] included.  [graphQL]
    never reads the status code: when the answer to the [/graphql] request
    has a status outside 200..299 and a body that decodes, [GetData] returns
    a [MemberData] and a nil error. *)
Theorem GetData_nil_error_on_non_2xx
    world `{!Unmarshal flexkit.memberDataResponse.t}
    (s : State flexkit.object) l m status data
    (response : flexkit.memberDataResponse.t) :
  heap s !! l = Some (flexkit.OMember m) ->
  world (wire s) (getMemberExchange m)
    = inr {| StatusCode := status; ReadAll := inr data |} ->
  status < 200 \/ 299 < status ->
  json_Unmarshal data = inr response ->
  exists p, (flexkit.GetData world (Some l) s).1 = Ok (Some p, None).
Proof.
  intros Hl Hw _ Hu.
  destruct (flexkit_GetData_decoded world s l m _ data response Hl Hw eq_refl Hu)
    as (d & Hrun & _).
  rewrite Hrun. eauto.
Qed.

(** A server error with an empty JSON object as body. *)
Lemma GetData_nil_error_on_status_500 :
  exists p,
    (flexkit.GetData (sample.server 500 "{}")
       (Unmarshal1 := sample.Unmarshal_memberDataResponse)
       (Some 1%positive) sample.state).1 = Ok (Some p, None).
Proof.
  apply (GetData_nil_error_on_non_2xx (sample.server 500 "{}")
           (Unmarshal0 := sample.Unmarshal_memberDataResponse)
           sample.state 1%positive sample.member 500 "{}" sample.zero_response).
  - reflexivity.
  - reflexivity.
  - right. lia.
  - reflexivity.
Defined.

(** C2 (the code departs from it).  The claim counts status 300 among the
    codes that make [sendRequest] fail.  The earlier revision tests
    [StatusCode > 300]: on status 300 its [sendRequest] returns the body and
    a nil error. *)
Theorem variant_sendRequest_nil_error_on_300
    world {T} `{!Reflect T} kind path (request : T) body
    (s : State variant.object) data :
  json_Marshal request = inr body ->
  validMethod kind = true ->
  stringContainsCTLByte (variant.domain +:+ path) = false ->
  world (wire s) ({| Timeout := 5 * Second |},
                  jsonRequest kind (variant.domain +:+ path) body)
    = inr {| StatusCode := 300; ReadAll := inr data |} ->
  (variant.sendRequest world kind path request s).1 = Ok (Some data, None).
Proof.
  intros HM Hk Hu Hw. rewrite (variant_sendRequest_run world _ _ _ _ _ HM Hk Hu).
  simpl. rewrite Hw. reflexivity.
Qed.

Lemma variant_sendRequest_nil_error_on_300_sample :
  (variant.sendRequest (sample.server 300 "Multiple Choices") "POST" "/api/service/login"
     sample.login sample.state_variant).1 = Ok (Some "Multiple Choices", None).
Proof.
  eapply (variant_sendRequest_nil_error_on_300 (sample.server 300 "Multiple Choices")
            "POST" "/api/service/login" sample.login _ sample.state_variant "Multiple Choices").
  - apply LoginRequest_encodes.
  - reflexivity.
  - reflexivity.
  - reflexivity.
Defined.

(** C3 (the code departs from it).  The claim has the body posted by
    [UpdateSettings] and [UpdateCreditCard] carry a member [pltoken] equal to
    the member's token.  The fields tagged [pltoken] ([token],
    [memberToken]) are not exported, so the encoder skips them: in both
    revisions the posted body has no member [pltoken], whatever the member
    and the request. *)
Theorem pltoken_is_not_posted
    world (s : State flexkit.object) (sv : State variant.object) l m
    (settings : flexkit.SettingsRequest.t)
    (card : flexkit.CreditCardRequest.t) (cardv : variant.CreditCardRequest.t) :
  heap s !! l = Some (flexkit.OMember m) ->
  heap sv !! l = Some (variant.OMember m) ->
  (exists c body,
     wire (flexkit.UpdateSettings world (Some l) settings s).2 =
       wire s ++ [(c, jsonRequest "POST"
                        "https://plasso.com/api/services/user?action=settings" body)]
     /\ field_of "pltoken" body = None) /\
  (exists c body,
     wire (flexkit.UpdateCreditCard world (Some l) card s).2 =
       wire s ++ [(c, jsonRequest "POST"
                        "https://plasso.com/api/services/user?action=cc" body)]
     /\ field_of "pltoken" body = None) /\
  (exists c body,
     wire (variant.UpdateSettings world (Some l) settings sv).2 =
       wire sv ++ [(c, jsonRequest "POST"
                         "https://plasso.com/api/services/user?action=settings" body)]
     /\ field_of "pltoken" body = None) /\
  (exists c body,
     wire (variant.UpdateCreditCard world (Some l) cardv sv).2 =
       wire sv ++ [(c, jsonRequest "POST"
                         "https://plasso.com/api/services/user?action=cc" body)]
     /\ field_of "pltoken" body = None).
Proof.
  intros Hl Hlv. repeat split.
  - destruct (flexkit_UpdateSettings_wire world settings s l m Hl) as (body & HM & Hw).
    rewrite SettingsRequest_encodes in HM. injection HM as <-.
    eexists _, _. split; [exact Hw | reflexivity].
  - destruct (flexkit_UpdateCreditCard_wire world card s l m Hl) as (body & HM & Hw).
    rewrite CreditCardRequest_encodes in HM. injection HM as <-.
    eexists _, _. split; [exact Hw | reflexivity].
  - destruct (variant_UpdateSettings_wire world settings sv l m Hlv) as (body & HM & Hw).
    rewrite SettingsRequest_encodes in HM. injection HM as <-.
    eexists _, _. split; [exact Hw | reflexivity].
  - destruct (variant_UpdateCreditCard_wire world cardv sv l m Hlv) as (body & HM & Hw).
    rewrite variant_CreditCardRequest_encodes in HM. injection HM as <-.
    eexists _, _. split; [exact Hw | reflexivity].
Qed.

Lemma pltoken_is_not_posted_sample :
  exists c body,
    wire (flexkit.UpdateSettings (sample.server 200 "{}") (Some 1%positive)
            sample.settings sample.state).2 =
      [(c, jsonRequest "POST" "https://plasso.com/api/services/user?action=settings" body)]
    /\ field_of "pltoken" body = None.
Proof.
  exact (proj1 (pltoken_is_not_posted (sample.server 200 "{}")
                  sample.state sample.state_variant 1%positive sample.member
                  sample.settings sample.card sample.card_variant eq_refl eq_refl)).
Defined.

(** C4.  When the POST that [Login] makes to [/api/service/login] is
    answered with a status in 200..299 and a body that decodes to a token
    [t], [Login] returns a nil error and a pointer to a new [Member] that
    holds the public key of the request and [t]. *)
Theorem Login_returns_Member
    world `{!Unmarshal flexkit.tokenResponse.t}
    (r : flexkit.LoginRequest.t) (s : State flexkit.object) status data t :
  world (wire s) (loginExchange r) = inr {| StatusCode := status; ReadAll := inr data |} ->
  200 <= status <= 299 ->
  json_Unmarshal data = inr (flexkit.tokenResponse.mk t) ->
  exists p,
    (flexkit.Login world r s).1 = Ok (Some p, None) /\
    heap s !! p = None /\
    heap (flexkit.Login world r s).2 =
      <[p := flexkit.OMember (flexkit.Member.mk (flexkit.LoginRequest.PublicKey r) t)]>
        (heap s) /\
    heap (flexkit.Login world r s).2 !! p =
      Some (flexkit.OMember (flexkit.Member.mk (flexkit.LoginRequest.PublicKey r) t)).
Proof.
  intros Hw Hst Hu. unfold flexkit.Login.
  erewrite bind_run; cycle 1.
  { apply flexkit_sendRequest_run; [apply LoginRequest_encodes | reflexivity..]. }
  change (world (wire s) _) with (world (wire s) (loginExchange r)).
  rewrite Hw. simpl.
  apply status_test_299 in Hst. rewrite Hst. simpl. rewrite Hu.
  exists (fresh (dom (heap s))). split; [reflexivity|].
  split; [apply not_elem_of_dom, is_fresh|].
  split; [reflexivity|].
  unfold mbind, M_bind, new. simpl. apply lookup_insert_eq.
Qed.

(** A server that checks the credentials it is sent. *)
Lemma Login_returns_Member_sample :
  exists p,
    (flexkit.Login sample.auth_server
       (Unmarshal0 := sample.Unmarshal_tokenResponse) sample.login sample.state).1
      = Ok (Some p, None) /\
    heap sample.state !! p = None /\
    heap (flexkit.Login sample.auth_server
            (Unmarshal0 := sample.Unmarshal_tokenResponse) sample.login sample.state).2
      = <[p := flexkit.OMember (flexkit.Member.mk "pk_1" "tok_1")]> (heap sample.state) /\
    heap (flexkit.Login sample.auth_server
            (Unmarshal0 := sample.Unmarshal_tokenResponse) sample.login sample.state).2
      !! p = Some (flexkit.OMember (flexkit.Member.mk "pk_1" "tok_1")).
Proof.
  apply (Login_returns_Member sample.auth_server
           (Unmarshal0 := sample.Unmarshal_tokenResponse)
           sample.login sample.state 200 sample.token_body "tok_1").
  - reflexivity.
  - lia.
  - reflexivity.
Defined.

(** C5.  When the [/graphql] request of [GetData] is answered and the body
    decodes into the member-data response, [GetData] returns a nil error and
    a pointer to a [MemberData] whose fields are those of the response. *)
Theorem GetData_returns_MemberData
    world `{!Unmarshal flexkit.memberDataResponse.t}
    (s : State flexkit.object) l m status data
    (response : flexkit.memberDataResponse.t) :
  heap s !! l = Some (flexkit.OMember m) ->
  world (wire s) (getMemberExchange m)
    = inr {| StatusCode := status; ReadAll := inr data |} ->
  json_Unmarshal data = inr response ->
  let rm := flexkit.memberDataResponse.Data.Member (flexkit.memberDataResponse.Data response) in
  let si := flexkit.memberDataResponse.Member.ShippingInfo rm in
  exists p d,
    (flexkit.GetData world (Some l) s).1 = Ok (Some p, None)
    /\ heap (flexkit.GetData world (Some l) s).2 !! p = Some (flexkit.OMemberData d)
    /\ flexkit.MemberData.Id d = flexkit.memberDataResponse.Member.Id rm
    /\ flexkit.MemberData.Name d = flexkit.memberDataResponse.Member.Name rm
    /\ flexkit.MemberData.Email d = flexkit.memberDataResponse.Member.Email rm
    /\ flexkit.MemberData.CreditCardLast4 d = flexkit.memberDataResponse.Member.CcLast4 rm
    /\ flexkit.MemberData.CreditCardType d = flexkit.memberDataResponse.Member.CcType rm
    /\ flexkit.MemberData.ShippingName d = flexkit.memberDataResponse.ShippingInfo.Name si
    /\ flexkit.MemberData.ShippingAddress d = flexkit.memberDataResponse.ShippingInfo.Address si
    /\ flexkit.MemberData.ShippingCity d = flexkit.memberDataResponse.ShippingInfo.City si
    /\ flexkit.MemberData.ShippingState d = flexkit.memberDataResponse.ShippingInfo.State si
    /\ flexkit.MemberData.ShippingZip d = flexkit.memberDataResponse.ShippingInfo.Zip si
    /\ flexkit.MemberData.ShippingCountry d = flexkit.memberDataResponse.ShippingInfo.Country si
    /\ flexkit.MemberData.DataFields d = flexkit.memberDataResponse.Member.DataFields rm
    /\ flexkit.MemberData.Plan d =
         flexkit.memberDataResponse.Plan.Alias (flexkit.memberDataResponse.Member.Plan rm).
Proof.
  intros Hl Hw Hu rm si.
  destruct (flexkit_GetData_decoded world s l m _ data response Hl Hw eq_refl Hu)
    as (d & Hrun & Hfields).
  exists (fresh (dom (heap s))), d. rewrite Hrun. simpl.
  split; [reflexivity|]. split; [apply lookup_insert_eq | exact Hfields].
Qed.

Lemma GetData_returns_MemberData_sample :
  exists p d,
    (flexkit.GetData (sample.server 200 sample.member_body)
       (Unmarshal1 := sample.Unmarshal_memberDataResponse)
       (Some 1%positive) sample.state).1 = Ok (Some p, None)
    /\ heap (flexkit.GetData (sample.server 200 sample.member_body)
               (Unmarshal1 := sample.Unmarshal_memberDataResponse)
               (Some 1%positive) sample.state).2 !! p = Some (flexkit.OMemberData d)
    /\ flexkit.MemberData.Id d = "42"
    /\ flexkit.MemberData.Plan d = "gold".
Proof.
  destruct (GetData_returns_MemberData (sample.server 200 sample.member_body)
              (Unmarshal0 := sample.Unmarshal_memberDataResponse)
              sample.state 1%positive sample.member 200 sample.member_body
              sample.member_response eq_refl eq_refl eq_refl)
    as (p & d & Hr & Hh & Hid & H).
  exists p, d. repeat split; [exact Hr | exact Hh | exact Hid | apply H].
Defined.

Lemma jsonRequest_posts c url body :
  posts_json_to url (c, jsonRequest "POST" url body).
Proof. repeat split. Qed.

(** C6.  In every state [Login], [CreatePayment] and [CreateSubscription]
    perform exactly one exchange each, and so does [GetData] on a live
    member: a POST with the header [Content-Type: application/json] to, in
    this order, [https://plasso.com/api/service/login],
    [https://plasso.com/api/payments], [https://plasso.com/api/subscriptions]
    and [https://plasso.com/graphql], whose body is the encoding of the
    request (for [CreateSubscription] after [SubscriptionFor] is set, for
    [GetData] the query with the member's token as its variable).  Each URL
    is the domain constant followed by the path. *)
Theorem endpoints :
  (forall world (dt : Unmarshal flexkit.tokenResponse.t)
          (login : flexkit.LoginRequest.t) (s : State flexkit.object),
     exists ex,
       wire (flexkit.Login world login s).2 = wire s ++ [ex] /\
       posts_json_to "https://plasso.com/api/service/login" ex /\
       json_Marshal login = inr (Body ex.2)) /\
  (forall world (payment : flexkit.PaymentRequest.t) (s : State flexkit.object),
     exists ex,
       wire (flexkit.CreatePayment world payment s).2 = wire s ++ [ex] /\
       posts_json_to "https://plasso.com/api/payments" ex /\
       json_Marshal payment = inr (Body ex.2)) /\
  (forall world (dt : Unmarshal flexkit.tokenResponse.t)
          (subscription : flexkit.SubscriptionRequest.t) (s : State flexkit.object),
     exists ex,
       wire (flexkit.CreateSubscription world subscription s).2 = wire s ++ [ex] /\
       posts_json_to "https://plasso.com/api/subscriptions" ex /\
       json_Marshal (flexkit.SubscriptionRequest.set_SubscriptionFor "space" subscription)
         = inr (Body ex.2)) /\
  (forall world (dm : Unmarshal flexkit.memberDataResponse.t)
          (s : State flexkit.object) l m,
     heap s !! l = Some (flexkit.OMember m) ->
     exists ex,
       wire (flexkit.GetData world (Some l) s).2 = wire s ++ [ex] /\
       posts_json_to "https://plasso.com/graphql" ex /\
       json_Marshal
         (flexkit.gqlQuery.mk flexkit.getMemberQuery
            (Some {[ "token" := flexkit.Member.Token m ]}))
         = inr (Body ex.2)) /\
  "https://plasso.com/api/service/login" = flexkit.domain +:+ "/api/service/login" /\
  "https://plasso.com/api/payments" = flexkit.domain +:+ "/api/payments" /\
  "https://plasso.com/api/subscriptions" = flexkit.domain +:+ "/api/subscriptions" /\
  "https://plasso.com/graphql" = flexkit.domain +:+ "/graphql".
Proof.
  repeat apply conj; try reflexivity.
  - intros world dt login s.
    destruct (flexkit_Login_wire world login s) as (body & HM & Hw).
    eexists. split; [exact Hw|]. split; [apply jsonRequest_posts | exact HM].
  - intros world payment s.
    destruct (flexkit_CreatePayment_wire world payment s) as (body & HM & Hw).
    eexists. split; [exact Hw|]. split; [apply jsonRequest_posts | exact HM].
  - intros world dt subscription s.
    destruct (SubscriptionRequest_encodes
                (flexkit.SubscriptionRequest.set_SubscriptionFor "space" subscription))
      as [rest HM].
    eexists. split.
    + unfold flexkit.CreateSubscription.
      rewrite wire_bind_silent by (intros [b e]; frame).
      apply flexkit_sendRequest_wire; [exact HM | reflexivity | reflexivity].
    + split; [apply jsonRequest_posts | exact HM].
  - intros world dm s l m Hl.
    exists (getMemberExchange m). split; [apply (flexkit_GetData_wire world s l m Hl)|].
    split; [apply jsonRequest_posts|].
    rewrite gqlQuery_encodes. unfold variables_json.
    rewrite sortedKeys_singleton. reflexivity.
Qed.

Lemma endpoints_sample :
  exists ex,
    wire (flexkit.GetData (sample.server 200 sample.member_body)
            (Unmarshal1 := sample.Unmarshal_memberDataResponse)
            (Some 1%positive) sample.state).2 = [ex] /\
    posts_json_to "https://plasso.com/graphql" ex /\
    json_Marshal
      (flexkit.gqlQuery.mk flexkit.getMemberQuery (Some {[ "token" := "tok_0" ]}))
      = inr (Body ex.2).
Proof.
  exact (proj1 (proj2 (proj2 (proj2 endpoints)))
           (sample.server 200 sample.member_body)
           sample.Unmarshal_memberDataResponse
           sample.state 1%positive sample.member eq_refl).
Defined.

(** C7.  Each function that talks to the server builds its own client with
    a fixed timeout and performs its exchange through it: 30 seconds in
    [sendRequest] of flexkit.go, 15 seconds in [graphQL], 5 seconds in
    [sendRequest] of the earlier revision, one second in [New] of package
    plasso.  Every operation performs exactly one exchange through the
    client of the function it calls ([GetData] of the earlier revision
    performs none), and the timeout of every exchange lies between 1 and 30
    seconds. *)
Theorem client_timeouts :
  (forall world T (R : Reflect T) kind path (request : T),
     exchanges_satisfy (fun ex => Timeout ex.1 = 30 * Second)
       (flexkit.sendRequest world kind path request)) /\
  (forall world T (R : Reflect T) kind path (request : T) body (s : State flexkit.object),
     In (kind, path) sendRequest_calls ->
     json_Marshal request = inr body ->
     sends_one (30 * Second) (flexkit.sendRequest world kind path request) s) /\
  (forall world T (U : Unmarshal T) query variables (s : State flexkit.object),
     sends_one (15 * Second) (flexkit.graphQL (T:=T) world query variables) s) /\
  (forall world T (R : Reflect T) kind path (request : T),
     exchanges_satisfy (fun ex => Timeout ex.1 = 5 * Second)
       (variant.sendRequest world kind path request)) /\
  (forall world T (R : Reflect T) kind path (request : T) body (s : State variant.object),
     In (kind, path) sendRequest_calls ->
     json_Marshal request = inr body ->
     sends_one (5 * Second) (variant.sendRequest world kind path request) s) /\
  (forall world (U : Unmarshal plasso.gqlResponse.t) token (s : State plasso.plasso.t),
     sends_one (1 * Second) (plasso.New world token) s) /\
  (forall world (dt : Unmarshal flexkit.tokenResponse.t)
          login payment subscription (s : State flexkit.object),
     sends_one (30 * Second) (flexkit.Login world login) s /\
     sends_one (30 * Second) (flexkit.CreatePayment world payment) s /\
     sends_one (30 * Second) (flexkit.CreateSubscription world subscription) s) /\
  (forall world (dm : Unmarshal flexkit.memberDataResponse.t)
          settings card (s : State flexkit.object) l m,
     heap s !! l = Some (flexkit.OMember m) ->
     sends_one (15 * Second) (flexkit.GetData world (Some l)) s /\
     sends_one (30 * Second) (flexkit.UpdateSettings world (Some l) settings) s /\
     sends_one (30 * Second) (flexkit.UpdateCreditCard world (Some l) card) s /\
     sends_one (30 * Second) (flexkit.Delete world (Some l)) s /\
     sends_one (30 * Second) (flexkit.Logout world (Some l)) s) /\
  (forall world (dt : Unmarshal variant.tokenResponse.t)
          login payment subscription (s : State variant.object),
     sends_one (5 * Second) (variant.Login world login) s /\
     sends_one (5 * Second) (variant.CreatePayment world payment) s /\
     sends_one (5 * Second) (variant.CreateSubscription world subscription) s) /\
  (forall world settings card (s : State variant.object) l m,
     heap s !! l = Some (variant.OMember m) ->
     wire (variant.GetData (Some l) s).2 = wire s /\
     sends_one (5 * Second) (variant.UpdateSettings world (Some l) settings) s /\
     sends_one (5 * Second) (variant.UpdateCreditCard world (Some l) card) s /\
     sends_one (5 * Second) (variant.Delete world (Some l)) s /\
     sends_one (5 * Second) (variant.Logout world (Some l)) s) /\
  (forall world (dt : Unmarshal flexkit.tokenResponse.t)
          (dm : Unmarshal flexkit.memberDataResponse.t)
          member login settings card payment subscription,
     exchanges_satisfy timeout_in_bounds (flexkit.Login world login) /\
     exchanges_satisfy timeout_in_bounds (flexkit.GetData world member) /\
     exchanges_satisfy timeout_in_bounds (flexkit.UpdateSettings world member settings) /\
     exchanges_satisfy timeout_in_bounds (flexkit.UpdateCreditCard world member card) /\
     exchanges_satisfy timeout_in_bounds (flexkit.CreatePayment world payment) /\
     exchanges_satisfy timeout_in_bounds (flexkit.CreateSubscription world subscription) /\
     exchanges_satisfy timeout_in_bounds (flexkit.Delete world member) /\
     exchanges_satisfy timeout_in_bounds (flexkit.Logout world member)) /\
  (forall world (dt : Unmarshal variant.tokenResponse.t)
          member login settings card payment subscription,
     exchanges_satisfy timeout_in_bounds (variant.Login world login) /\
     exchanges_satisfy timeout_in_bounds (variant.GetData member) /\
     exchanges_satisfy timeout_in_bounds (variant.UpdateSettings world member settings) /\
     exchanges_satisfy timeout_in_bounds (variant.UpdateCreditCard world member card) /\
     exchanges_satisfy timeout_in_bounds (variant.CreatePayment world payment) /\
     exchanges_satisfy timeout_in_bounds (variant.CreateSubscription world subscription) /\
     exchanges_satisfy timeout_in_bounds (variant.Delete world member) /\
     exchanges_satisfy timeout_in_bounds (variant.Logout world member)) /\
  (forall world (U : Unmarshal plasso.gqlResponse.t) token,
     exchanges_satisfy timeout_in_bounds (plasso.New world token)).
Proof.
  repeat match goal with
         | |- _ /\ _ => split
         | |- forall _, _ => intro
         | H : heap _ !! _ = Some _ |- _ => fail 1
         | |- _ -> _ => intro
         end.
  - apply flexkit_sendRequest_timeout.
  - destruct (sendRequest_calls_accepted kind path) as [Hk Hu]; [assumption|].
    eexists. apply flexkit_sendRequest_wire; eassumption.
  - eexists. rewrite flexkit_graphQL_run. reflexivity.
  - apply variant_sendRequest_timeout.
  - destruct (sendRequest_calls_accepted kind path) as [Hk Hu]; [assumption|].
    eexists. apply variant_sendRequest_wire; eassumption.
  - destruct (plasso_New_wire world token s) as (req & Hw & _). exists req. exact Hw.
  - destruct (flexkit_Login_wire world login s) as (body & _ & Hw). eexists. exact Hw.
  - destruct (flexkit_CreatePayment_wire world payment s) as (body & _ & Hw).
    eexists. exact Hw.
  - destruct (flexkit_CreateSubscription_wire world subscription s) as (rest & Hw).
    eexists. exact Hw.
  - eexists. apply flexkit_GetData_wire. eassumption.
  - destruct (flexkit_UpdateSettings_wire world settings s l m) as (body & _ & Hw);
      [assumption|]. eexists. exact Hw.
  - destruct (flexkit_UpdateCreditCard_wire world card s l m) as (body & _ & Hw);
      [assumption|]. eexists. exact Hw.
  - eexists. apply flexkit_Delete_wire. eassumption.
  - eexists. apply flexkit_Logout_wire. eassumption.
  - eexists. apply variant_Login_wire.
  - destruct (variant_CreatePayment_wire world payment s) as (body & _ & Hw).
    eexists. exact Hw.
  - destruct (variant_CreateSubscription_wire world subscription s) as (ms & _ & Hw).
    eexists. exact Hw.
  - reflexivity.
  - destruct (variant_UpdateSettings_wire world settings s l m) as (body & _ & Hw);
      [assumption|]. eexists. exact Hw.
  - destruct (variant_UpdateCreditCard_wire world card s l m) as (body & _ & Hw);
      [assumption|]. eexists. exact Hw.
  - eexists. apply variant_Delete_wire. eassumption.
  - eexists. apply variant_Logout_wire. eassumption.
  - unfold flexkit.Login. frame.
  - unfold flexkit.GetData, flexkit.load_Member. frame.
  - unfold flexkit.UpdateSettings, flexkit.load_Member. frame.
  - unfold flexkit.UpdateCreditCard, flexkit.load_Member. frame.
  - unfold flexkit.CreatePayment. frame.
  - unfold flexkit.CreateSubscription. frame.
  - unfold flexkit.Delete, flexkit.load_Member. frame.
  - unfold flexkit.Logout, flexkit.load_Member. frame.
  - unfold variant.Login. frame.
  - unfold variant.GetData. frame.
  - unfold variant.UpdateSettings, variant.load_Member. frame.
  - unfold variant.UpdateCreditCard, variant.load_Member. frame.
  - unfold variant.CreatePayment. frame.
  - unfold variant.CreateSubscription. frame.
  - unfold variant.Delete, variant.load_Member. frame.
  - unfold variant.Logout, variant.load_Member. frame.
  - apply plasso_New_bounds.
Qed.

(** [GetData] on the member at address 1 goes through the 15 second
    client. *)
Lemma client_timeouts_sample :
  sends_one (15 * Second)
    (flexkit.GetData (sample.server 200 sample.member_body)
       (Unmarshal1 := sample.Unmarshal_memberDataResponse) (Some 1%positive))
    sample.state.
Proof.
  exact (proj1 (proj1 (proj2 (proj2 (proj2 (proj2 (proj2 (proj2 (proj2 client_timeouts)))))))
                  (sample.server 200 sample.member_body)
                  sample.Unmarshal_memberDataResponse
                  sample.settings sample.card sample.state 1%positive sample.member
                  eq_refl)).
Defined.

(** In flexkit.go [CreateSubscription] posts [subscription_for] with the
    value [space], whatever the caller put in that field. *)
Lemma flexkit_CreateSubscription_posts_space
    world `{!Unmarshal flexkit.tokenResponse.t}
    (request : flexkit.SubscriptionRequest.t) (s : State flexkit.object) :
  exists c body,
    wire (flexkit.CreateSubscription world request s).2 =
      wire s ++ [(c, jsonRequest "POST" "https://plasso.com/api/subscriptions" body)]
    /\ field_of "subscription_for" body = Some (JString "space").
Proof.
  destruct (flexkit_CreateSubscription_wire world request s) as (rest & Hw).
  eexists _, _. split; [exact Hw | reflexivity].
Qed.

(** C8 (the code departs from it).  The claim has the body posted by
    [CreateSubscription] carry [subscription_for] with the value [space].
    In the earlier revision the field is [subscriptionFor], which is not
    exported: the assignment is made, the encoder skips the field, and the
    posted body has no member [subscription_for]. *)
Theorem variant_CreateSubscription_omits_subscription_for
    world `{!Unmarshal variant.tokenResponse.t}
    (request : variant.SubscriptionRequest.t) (s : State variant.object) :
  variant.SubscriptionRequest.subscriptionFor
    (variant.SubscriptionRequest.set_subscriptionFor "space" request) = "space" /\
  exists c body,
    wire (variant.CreateSubscription world request s).2 =
      wire s ++ [(c, jsonRequest "POST" "https://plasso.com/api/subscriptions" body)]
    /\ field_of "subscription_for" body = None.
Proof.
  split; [reflexivity|].
  destruct (variant_CreateSubscription_wire world request s) as (members & Hnone & Hw).
  eexists _, _. split; [exact Hw | exact Hnone].
Qed.

(** C9.  No method of [Member] changes the [Member] it is called on: after
    [GetData], [UpdateSettings], [UpdateCreditCard], [Delete] and [Logout],
    in either revision and whatever the outcome, the cell of the receiver
    holds the [Member] it held before. *)
Theorem Member_methods_keep_the_Member
    world `{!Unmarshal flexkit.memberDataResponse.t}
    (s : State flexkit.object) (sv : State variant.object) l m
    (settings : flexkit.SettingsRequest.t)
    (card : flexkit.CreditCardRequest.t) (cardv : variant.CreditCardRequest.t) :
  heap s !! l = Some (flexkit.OMember m) ->
  heap sv !! l = Some (variant.OMember m) ->
  (heap (flexkit.GetData world (Some l) s).2 !! l = Some (flexkit.OMember m) /\
   heap (flexkit.UpdateSettings world (Some l) settings s).2 !! l = Some (flexkit.OMember m) /\
   heap (flexkit.UpdateCreditCard world (Some l) card s).2 !! l = Some (flexkit.OMember m) /\
   heap (flexkit.Delete world (Some l) s).2 !! l = Some (flexkit.OMember m) /\
   heap (flexkit.Logout world (Some l) s).2 !! l = Some (flexkit.OMember m)) /\
  (heap (variant.GetData (Some l) sv).2 !! l = Some (variant.OMember m) /\
   heap (variant.UpdateSettings world (Some l) settings sv).2 !! l = Some (variant.OMember m) /\
   heap (variant.UpdateCreditCard world (Some l) cardv sv).2 !! l = Some (variant.OMember m) /\
   heap (variant.Delete world (Some l) sv).2 !! l = Some (variant.OMember m) /\
   heap (variant.Logout world (Some l) sv).2 !! l = Some (variant.OMember m)).
Proof.
  intros Hl Hlv. split; repeat apply conj.
  - apply flexkit_GetData_keeps, Hl.
  - apply flexkit_UpdateSettings_keeps, Hl.
  - apply flexkit_UpdateCreditCard_keeps, Hl.
  - apply flexkit_Delete_keeps, Hl.
  - apply flexkit_Logout_keeps, Hl.
  - apply variant_GetData_keeps, Hlv.
  - apply variant_UpdateSettings_keeps, Hlv.
  - apply variant_UpdateCreditCard_keeps, Hlv.
  - apply variant_Delete_keeps, Hlv.
  - apply variant_Logout_keeps, Hlv.
Qed.

Lemma Member_methods_keep_the_Member_sample :
  heap (flexkit.UpdateSettings (sample.server 500 "{}") (Some 1%positive)
          sample.settings sample.state).2 !! 1%positive
    = Some (flexkit.OMember sample.member).
Proof.
  exact (proj1 (proj2 (proj1
           (Member_methods_keep_the_Member (sample.server 500 "{}")
              (Unmarshal0 := sample.Unmarshal_memberDataResponse)
              sample.state sample.state_variant 1%positive sample.member
              sample.settings sample.card sample.card_variant eq_refl eq_refl)))).
Defined.

(** C10.  [Login] and [CreateSubscription] return, in either revision, a nil
    pointer together with an error or a pointer together with a nil error:
    exactly one of the two results is set, in every outcome. *)
Theorem Member_pointer_or_error :
  (forall world (dt : Unmarshal flexkit.tokenResponse.t) request (s : State flexkit.object),
     pointer_xor_error (flexkit.Login world request s).1) /\
  (forall world (dt : Unmarshal flexkit.tokenResponse.t) request (s : State flexkit.object),
     pointer_xor_error (flexkit.CreateSubscription world request s).1) /\
  (forall world (dt : Unmarshal variant.tokenResponse.t) request (s : State variant.object),
     pointer_xor_error (variant.Login world request s).1) /\
  (forall world (dt : Unmarshal variant.tokenResponse.t) request (s : State variant.object),
     pointer_xor_error (variant.CreateSubscription world request s).1).
Proof.
  repeat apply conj; intros world dt request s.
  - unfold flexkit.Login.
    destruct (flexkit_sendRequest_frame world "POST" "/api/service/login" request s)
      as ((body & err & Hr) & _).
    rewrite (bind_result _ _ _ _ Hr). xor_cases.
  - unfold flexkit.CreateSubscription.
    destruct (flexkit_sendRequest_frame world "POST" "/api/subscriptions"
                (flexkit.SubscriptionRequest.set_SubscriptionFor "space" request) s)
      as ((body & err & Hr) & _).
    rewrite (bind_result _ _ _ _ Hr). xor_cases.
  - unfold variant.Login.
    destruct (variant_sendRequest_frame world "POST" "/api/service/login" request s)
      as ((body & err & Hr) & _).
    rewrite (bind_result _ _ _ _ Hr). xor_cases.
  - unfold variant.CreateSubscription.
    destruct (variant_sendRequest_frame world "POST" "/api/subscriptions"
                (variant.SubscriptionRequest.set_subscriptionFor "space" request) s)
      as ((body & err & Hr) & _).
    rewrite (bind_result _ _ _ _ Hr). xor_cases.
Qed.

(** * Further properties of the operations *)

(** ** [Login] *)

Section flexkit_Login.
Context (world : World) `{!Unmarshal flexkit.tokenResponse.t}.

(** [Login], step by step: one exchange, then the status test, then the
    decoder, then the allocation. *)
Lemma flexkit_Login_run (r : flexkit.LoginRequest.t) (s : State flexkit.object) :
  let sent := mkState (heap s) (wire s ++ [loginExchange r]) in
  flexkit.Login world r s =
    match world (wire s) (loginExchange r) with
    | inl err => (Ok (None, Some err), sent)
    | inr res =>
        match ReadAll res with
        | inl err => (Ok (None, Some err), sent)
        | inr data =>
            if (StatusCode res <? 200) || (StatusCode res >? 299) then
              (Ok (None,
                   Some (errors_New ("POST " +:+ pretty (StatusCode res)
                                       +:+ " https://plasso.com/api/service/login "
                                       +:+ data))),
               sent)
            else
              match json_Unmarshal data with
              | inl err => (Ok (None, Some err), sent)
              | inr tr =>
                  (Ok (Some (fresh (dom (heap s))), None),
                   mkState (<[fresh (dom (heap s)) :=
                                flexkit.OMember
                                  (flexkit.Member.mk (flexkit.LoginRequest.PublicKey r)
                                     (flexkit.tokenResponse.Token tr))]> (heap s))
                           (wire s ++ [loginExchange r]))
              end
        end
    end.
Proof.
  intros sent. unfold flexkit.Login.
  erewrite bind_run; cycle 1.
  { apply flexkit_sendRequest_run; [apply LoginRequest_encodes | reflexivity..]. }
  change (world (wire s) _) with (world (wire s) (loginExchange r)).
  destruct (world (wire s) (loginExchange r)) as [err|res]; [reflexivity|].
  destruct (ReadAll res) as [err|data]; [reflexivity|].
  destruct ((StatusCode res <? 200) || (StatusCode res >? 299)); [reflexivity|].
  simpl. destruct (json_Unmarshal data) as [err|tr]; reflexivity.
Qed.

End flexkit_Login.

(** On a status code outside 200..299 [Login] returns no member and an error
    that spells out the method, the status code, the URL and the body of the
    answer; the body is not decoded, and nothing is allocated. *)
Theorem Login_non_2xx
    world `{!Unmarshal flexkit.tokenResponse.t}
    (r : flexkit.LoginRequest.t) (s : State flexkit.object) status data :
  world (wire s) (loginExchange r) = inr {| StatusCode := status; ReadAll := inr data |} ->
  status < 200 \/ 299 < status ->
  flexkit.Login world r s =
    (Ok (None,
         Some (errors_New ("POST " +:+ pretty status
                             +:+ " https://plasso.com/api/service/login " +:+ data))),
     mkState (heap s) (wire s ++ [loginExchange r])).
Proof.
  intros Hw Hst. rewrite flexkit_Login_run, Hw. simpl.
  destruct ((status <? 200) || (status >? 299)) eqn:Htest; [reflexivity|].
  apply status_test_299 in Htest. lia.
Qed.

Lemma Login_non_2xx_sample :
  flexkit.Login (sample.server 401 sample.token_body)
    (Unmarshal0 := sample.Unmarshal_tokenResponse) sample.login sample.state =
    (Ok (None,
         Some (errors_New ("POST 401 https://plasso.com/api/service/login "
                             +:+ sample.token_body))),
     mkState (heap sample.state) [loginExchange sample.login]).
Proof.
  apply (Login_non_2xx (sample.server 401 sample.token_body)
           (Unmarshal0 := sample.Unmarshal_tokenResponse)
           sample.login sample.state 401 sample.token_body).
  - reflexivity.
  - right. lia.
Defined.

(** [Login] hands on, unchanged, the error of the transport, of reading the
    body, and (on a status in 200..299) of the decoder; in each case it
    returns no member and allocates nothing. *)
Theorem Login_propagates_errors
    world `{!Unmarshal flexkit.tokenResponse.t}
    (r : flexkit.LoginRequest.t) (s : State flexkit.object) err :
  world (wire s) (loginExchange r) = inl err \/
  (exists res, world (wire s) (loginExchange r) = inr res /\ ReadAll res = inl err) \/
  (exists res data,
     world (wire s) (loginExchange r) = inr res /\ ReadAll res = inr data /\
     200 <= StatusCode res <= 299 /\
     json_Unmarshal (T := flexkit.tokenResponse.t) data = inl err) ->
  flexkit.Login world r s =
    (Ok (None, Some err), mkState (heap s) (wire s ++ [loginExchange r])).
Proof.
  intros [Hw | [(res & Hw & Hr) | (res & data & Hw & Hr & Hst & Hu)]];
    rewrite flexkit_Login_run, Hw; [reflexivity | |].
  - rewrite Hr. reflexivity.
  - rewrite Hr. apply status_test_299 in Hst. rewrite Hst, Hu. reflexivity.
Qed.

(** A status of 200 with a body that the decoder refuses. *)
Lemma Login_propagates_errors_sample :
  flexkit.Login (sample.server 200 "not json")
    (Unmarshal0 := sample.Unmarshal_tokenResponse) sample.login sample.state =
    (Ok (None, Some sample.not_canned),
     mkState (heap sample.state) [loginExchange sample.login]).
Proof.
  apply (Login_propagates_errors (sample.server 200 "not json")
           (Unmarshal0 := sample.Unmarshal_tokenResponse)
           sample.login sample.state sample.not_canned).
  right. right. exists {| StatusCode := 200; ReadAll := inr "not json" |}, "not json".
  split; [reflexivity|]. split; [reflexivity|].
  split; [simpl; lia | reflexivity].
Defined.

(** What [Login] does to the heap: on an error nothing; on success, which
    takes an answer with a status in 200..299 whose body decodes, one cell
    is added, at an address that was free, holding the public key of the
    request and the token that the decoder read from that body. *)
Theorem Login_outcomes
    world `{!Unmarshal flexkit.tokenResponse.t}
    (r : flexkit.LoginRequest.t) (s : State flexkit.object) :
  (exists err,
     (flexkit.Login world r s).1 = Ok (None, Some err) /\
     heap (flexkit.Login world r s).2 = heap s) \/
  (exists p res data tr,
     world (wire s) (loginExchange r) = inr res /\
     ReadAll res = inr data /\
     200 <= StatusCode res <= 299 /\
     json_Unmarshal data = inr tr /\
     (flexkit.Login world r s).1 = Ok (Some p, None) /\
     heap s !! p = None /\
     heap (flexkit.Login world r s).2 =
       <[p := flexkit.OMember
                (flexkit.Member.mk (flexkit.LoginRequest.PublicKey r)
                   (flexkit.tokenResponse.Token tr))]>
         (heap s)).
Proof.
  rewrite flexkit_Login_run.
  destruct (world (wire s) (loginExchange r)) as [err|res] eqn:Hw; [left; eauto|].
  destruct (ReadAll res) as [err|data] eqn:Hr; [left; eauto|].
  destruct ((StatusCode res <? 200) || (StatusCode res >? 299)) eqn:Hst; [left; eauto|].
  destruct (json_Unmarshal data) as [err|tr] eqn:Hu; [left; eauto|].
  right. exists (fresh (dom (heap s))), res, data, tr.
  apply status_test_299 in Hst.
  do 4 (split; [first [reflexivity | assumption]|]).
  split; [reflexivity|]. split; [|reflexivity].
  apply not_elem_of_dom, is_fresh.
Qed.

(** ** The operations that return only an error *)

Section flexkit_error_only.
Context (world : World).

(** [sendRequest] on a request that encodes: the exchange, and a nil error
    exactly on an answer that was read and has a status in 200..299. *)
Lemma flexkit_sendRequest_answer {T} `{!Reflect T} kind path (request : T) body
    (s : State flexkit.object) :
  json_Marshal request = inr body ->
  validMethod kind = true ->
  stringContainsCTLByte (flexkit.domain +:+ path) = false ->
  let ex := ({| Timeout := 30 * Second |}, jsonRequest kind (flexkit.domain +:+ path) body) in
  exists data err,
    flexkit.sendRequest world kind path request s =
      (Ok (data, err), mkState (heap s) (wire s ++ [ex])) /\
    (err = None <-> answered_2xx (world (wire s) ex)).
Proof.
  intros HM Hk Hu ex. rewrite (flexkit_sendRequest_run world _ _ _ _ _ HM Hk Hu).
  fold ex. unfold answered_2xx.
  destruct (world (wire s) ex) as [e|res].
  { eexists _, _. split; [reflexivity|]. split; [discriminate|].
    intros (? & ? & [=] & _). }
  destruct (ReadAll res) as [e|data] eqn:Hread.
  { eexists _, _. split; [reflexivity|]. split; [discriminate|].
    intros (? & ? & [= <-] & Hr & _). congruence. }
  destruct ((StatusCode res <? 200) || (StatusCode res >? 299)) eqn:Hst.
  - eexists _, _. split; [reflexivity|]. split; [discriminate|].
    intros (? & ? & [= <-] & _ & Hrange). apply status_test_299 in Hrange. congruence.
  - eexists _, _. split; [reflexivity|]. split; [|reflexivity].
    intros _. exists res, data. apply status_test_299 in Hst. auto.
Qed.

End flexkit_error_only.

(** Runs an operation that is [sendRequest] followed by the return of its
    error. *)
Ltac error_only s HM :=
  match goal with
  | |- context [flexkit.sendRequest ?w ?kind ?path ?request] =>
      destruct (flexkit_sendRequest_answer w kind path request _ s HM eq_refl eq_refl)
        as (data & err & Hrun & Hiff);
      rewrite (bind_run _ _ _ _ _ Hrun);
      exists err; split; [destruct err; reflexivity | exact Hiff]
  end.

(** [CreatePayment] performs one exchange and returns a nil error exactly
    when the answer was read and has a status in 200..299; the body of the
    answer is not looked at. *)
Theorem CreatePayment_nil_error_iff
    world (payment : flexkit.PaymentRequest.t) (s : State flexkit.object) :
  exists body,
    json_Marshal payment = inr body /\
    let ex := ({| Timeout := 30 * Second |},
               jsonRequest "POST" "https://plasso.com/api/payments" body) in
    exists err,
      flexkit.CreatePayment world payment s =
        (Ok err, mkState (heap s) (wire s ++ [ex])) /\
      (err = None <-> answered_2xx (world (wire s) ex)).
Proof.
  destruct (PaymentRequest_encodes payment) as [members HM].
  exists (JObject members). split; [exact HM|]. intros ex.
  unfold flexkit.CreatePayment. error_only s HM.
Qed.

(** [UpdateSettings] and [UpdateCreditCard] on a live member perform one
    exchange each and return a nil error exactly when the answer was read and
    has a status in 200..299. *)
Theorem updates_nil_error_iff
    world (s : State flexkit.object) l m
    (settings : flexkit.SettingsRequest.t) (card : flexkit.CreditCardRequest.t) :
  heap s !! l = Some (flexkit.OMember m) ->
  (exists body err,
     let ex := ({| Timeout := 30 * Second |},
                jsonRequest "POST" "https://plasso.com/api/services/user?action=settings"
                  body) in
     flexkit.UpdateSettings world (Some l) settings s =
       (Ok err, mkState (heap s) (wire s ++ [ex])) /\
     (err = None <-> answered_2xx (world (wire s) ex))) /\
  (exists body err,
     let ex := ({| Timeout := 30 * Second |},
                jsonRequest "POST" "https://plasso.com/api/services/user?action=cc" body) in
     flexkit.UpdateCreditCard world (Some l) card s =
       (Ok err, mkState (heap s) (wire s ++ [ex])) /\
     (err = None <-> answered_2xx (world (wire s) ex))).
Proof.
  intros Hl. split.
  - eexists. unfold flexkit.UpdateSettings.
    rewrite (bind_run _ _ _ _ _ (flexkit_load_Member_ok _ _ _ Hl)).
    error_only s (SettingsRequest_encodes
                  (flexkit.SettingsRequest.set_token (flexkit.Member.Token m) settings)).
  - eexists. unfold flexkit.UpdateCreditCard.
    rewrite (bind_run _ _ _ _ _ (flexkit_load_Member_ok _ _ _ Hl)).
    error_only s (CreditCardRequest_encodes
                  (flexkit.CreditCardRequest.set_memberToken (flexkit.Member.Token m) card)).
Qed.

Lemma updates_nil_error_iff_sample :
  exists body err,
    let ex := ({| Timeout := 30 * Second |},
               jsonRequest "POST" "https://plasso.com/api/services/user?action=settings"
                 body) in
    flexkit.UpdateSettings (sample.server 204 "") (Some 1%positive) sample.settings
      sample.state = (Ok err, mkState (heap sample.state) [ex]) /\
    (err = None <-> answered_2xx (sample.server 204 "" [] ex)).
Proof.
  exact (proj1 (updates_nil_error_iff (sample.server 204 "") sample.state 1%positive
                  sample.member sample.settings sample.card eq_refl)).
Defined.

(** ** [Delete] and [Logout] *)

(** [Delete] on a live member sends one DELETE to [/api/service/user] whose
    body is the object with the member's token, and returns a nil error
    exactly when the answer was read and has a status in 200..299. *)
Theorem Delete_request_and_result
    world (s : State flexkit.object) l m :
  heap s !! l = Some (flexkit.OMember m) ->
  exists err,
    flexkit.Delete world (Some l) s =
      (Ok err, mkState (heap s) (wire s ++ [deleteExchange m])) /\
    (err = None <-> answered_2xx (world (wire s) (deleteExchange m))).
Proof.
  intros Hl. unfold flexkit.Delete.
  rewrite (bind_run _ _ _ _ _ (flexkit_load_Member_ok _ _ _ Hl)).
  error_only s (Delete_request_encodes (flexkit.Member.Token m)).
Qed.

Lemma Delete_request_and_result_sample :
  exists err,
    flexkit.Delete (sample.server 200 "{}") (Some 1%positive) sample.state =
      (Ok err, mkState (heap sample.state) [deleteExchange sample.member]) /\
    (err = None <-> answered_2xx (sample.server 200 "{}" [] (deleteExchange sample.member))).
Proof.
  exact (Delete_request_and_result (sample.server 200 "{}") sample.state 1%positive
           sample.member eq_refl).
Defined.

(** [Logout] of flexkit.go on a live member sends one POST to
    [/api/service/logout] whose body holds the member's public key and
    token; [Logout] of the earlier revision sends the token alone. *)
Theorem Logout_request
    world (s : State flexkit.object) (sv : State variant.object) l m :
  heap s !! l = Some (flexkit.OMember m) ->
  heap sv !! l = Some (variant.OMember m) ->
  (exists err,
     flexkit.Logout world (Some l) s =
       (Ok err, mkState (heap s) (wire s ++ [logoutExchange m])) /\
     (err = None <-> answered_2xx (world (wire s) (logoutExchange m)))) /\
  wire (variant.Logout world (Some l) sv).2 = wire sv ++ [variant_logoutExchange m].
Proof.
  intros Hl Hlv. split.
  - unfold flexkit.Logout.
    rewrite (bind_run _ _ _ _ _ (flexkit_load_Member_ok _ _ _ Hl)).
    error_only s (Logout_request_encodes (flexkit.Member.Token m) (flexkit.Member.PublicKey m)).
  - unfold variant.Logout.
    rewrite (bind_run _ _ _ _ _ (variant_load_Member_ok _ _ _ Hlv)).
    rewrite wire_bind_silent by (intros [b e]; frame).
    apply variant_sendRequest_wire;
      [apply Delete_request_encodes | reflexivity | reflexivity].
Qed.

Lemma Logout_request_sample :
  wire (variant.Logout (sample.server 200 "{}") (Some 1%positive) sample.state_variant).2
    = [variant_logoutExchange sample.member].
Proof.
  exact (proj2 (Logout_request (sample.server 200 "{}") sample.state sample.state_variant
                  1%positive sample.member eq_refl eq_refl)).
Defined.

(** ** Nil receivers *)

(** Called on a nil receiver, every method of [Member] in flexkit.go panics
    before anything is sent, and so does every method of the earlier
    revision but [GetData], which does not read its receiver. *)
Theorem nil_receiver
    world `{!Unmarshal flexkit.memberDataResponse.t}
    (s : State flexkit.object) (sv : State variant.object)
    (settings : flexkit.SettingsRequest.t)
    (card : flexkit.CreditCardRequest.t) (cardv : variant.CreditCardRequest.t) :
  let msg := "invalid memory address or nil pointer dereference" in
  flexkit.GetData world None s = (Panic msg, s) /\
  flexkit.UpdateSettings world None settings s = (Panic msg, s) /\
  flexkit.UpdateCreditCard world None card s = (Panic msg, s) /\
  flexkit.Delete world None s = (Panic msg, s) /\
  flexkit.Logout world None s = (Panic msg, s) /\
  variant.GetData None sv = (Ok (None, None), sv) /\
  variant.UpdateSettings world None settings sv = (Panic msg, sv) /\
  variant.UpdateCreditCard world None cardv sv = (Panic msg, sv) /\
  variant.Delete world None sv = (Panic msg, sv) /\
  variant.Logout world None sv = (Panic msg, sv).
Proof. repeat split. Qed.

(** ** [GetData] *)

Section flexkit_GetData_more.
Context (world : World) `{!Unmarshal flexkit.memberDataResponse.t}.

(** [GetData] on a live member, up to the decoder. *)
Lemma flexkit_GetData_answer (s : State flexkit.object) l m :
  heap s !! l = Some (flexkit.OMember m) ->
  let sent := mkState (heap s) (wire s ++ [getMemberExchange m]) in
  let answer : error + flexkit.memberDataResponse.t :=
    match world (wire s) (getMemberExchange m) with
    | inl err => inl err
    | inr res =>
        match ReadAll res with
        | inl err => inl err
        | inr data => json_Unmarshal data
        end
    end in
  match answer with
  | inl err => flexkit.GetData world (Some l) s = (Ok (None, Some err), sent)
  | inr _ =>
      exists d,
        flexkit.GetData world (Some l) s =
          (Ok (Some (fresh (dom (heap s))), None),
           mkState (<[fresh (dom (heap s)) := flexkit.OMemberData d]> (heap s))
                   (wire s ++ [getMemberExchange m])) /\
        flexkit.MemberData.ShippingOptions d = ""
  end.
Proof.
  intros Hl sent answer. unfold flexkit.GetData.
  rewrite (bind_run _ _ _ _ _ (flexkit_load_Member_ok _ _ _ Hl)).
  erewrite bind_run; cycle 1.
  { rewrite flexkit_graphQL_run. unfold variables_json.
    rewrite sortedKeys_singleton. reflexivity. }
  match goal with
  | |- context [world (wire s) ?e] => change e with (getMemberExchange m)
  end.
  fold answer. destruct answer as [err|response]; [reflexivity|].
  eexists. split; reflexivity.
Qed.

End flexkit_GetData_more.

(** [GetData] hands on, unchanged, the error of the transport, of reading
    the body and of the decoder; in each case it returns no [MemberData] and
    allocates nothing. *)
Theorem GetData_propagates_errors
    world `{!Unmarshal flexkit.memberDataResponse.t}
    (s : State flexkit.object) l m err :
  heap s !! l = Some (flexkit.OMember m) ->
  world (wire s) (getMemberExchange m) = inl err \/
  (exists res, world (wire s) (getMemberExchange m) = inr res /\ ReadAll res = inl err) \/
  (exists res data,
     world (wire s) (getMemberExchange m) = inr res /\ ReadAll res = inr data /\
     json_Unmarshal (T := flexkit.memberDataResponse.t) data = inl err) ->
  flexkit.GetData world (Some l) s =
    (Ok (None, Some err), mkState (heap s) (wire s ++ [getMemberExchange m])).
Proof.
  intros Hl Hcase. pose proof (flexkit_GetData_answer world s l m Hl) as H.
  simpl in H.
  destruct Hcase as [Hw | [(res & Hw & Hr) | (res & data & Hw & Hr & Hu)]];
    rewrite Hw in H; [exact H | |].
  - rewrite Hr in H. exact H.
  - rewrite Hr, Hu in H. exact H.
Qed.

(** The connection is refused. *)
Lemma GetData_propagates_errors_sample :
  flexkit.GetData (fun _ _ => inl (errors_New "connection refused"))
    (Unmarshal1 := sample.Unmarshal_memberDataResponse) (Some 1%positive) sample.state =
    (Ok (None, Some (errors_New "connection refused")),
     mkState (heap sample.state) [getMemberExchange sample.member]).
Proof.
  apply (GetData_propagates_errors (fun _ _ => inl (errors_New "connection refused"))
           (Unmarshal0 := sample.Unmarshal_memberDataResponse)
           sample.state 1%positive sample.member (errors_New "connection refused")
           eq_refl).
  left. reflexivity.
Defined.

(** What [GetData] does on a live member: either an error and an unchanged
    heap, or a nil error and one new cell, at an address that was free,
    holding a [MemberData] whose [ShippingOptions] is empty (no statement of
    [GetData] assigns that field). *)
Theorem GetData_outcomes
    world `{!Unmarshal flexkit.memberDataResponse.t}
    (s : State flexkit.object) l m :
  heap s !! l = Some (flexkit.OMember m) ->
  (exists err,
     (flexkit.GetData world (Some l) s).1 = Ok (None, Some err) /\
     heap (flexkit.GetData world (Some l) s).2 = heap s) \/
  (exists p d,
     (flexkit.GetData world (Some l) s).1 = Ok (Some p, None) /\
     heap s !! p = None /\
     heap (flexkit.GetData world (Some l) s).2 = <[p := flexkit.OMemberData d]> (heap s) /\
     flexkit.MemberData.ShippingOptions d = "").
Proof.
  intros Hl. pose proof (flexkit_GetData_answer world s l m Hl) as H. simpl in H.
  destruct (world (wire s) (getMemberExchange m)) as [err|res];
    [left; rewrite H; eauto|].
  destruct (ReadAll res) as [err|data]; [left; rewrite H; eauto|].
  destruct (json_Unmarshal data) as [err|response]; [left; rewrite H; eauto|].
  destruct H as (d & Hrun & Hso). right. exists (fresh (dom (heap s))), d.
  rewrite Hrun. repeat split; [|exact Hso].
  apply not_elem_of_dom, is_fresh.
Qed.

Lemma GetData_outcomes_sample :
  (exists err,
     (flexkit.GetData (sample.server 200 sample.member_body)
        (Unmarshal1 := sample.Unmarshal_memberDataResponse)
        (Some 1%positive) sample.state).1 = Ok (None, Some err) /\
     heap (flexkit.GetData (sample.server 200 sample.member_body)
             (Unmarshal1 := sample.Unmarshal_memberDataResponse)
             (Some 1%positive) sample.state).2 = heap sample.state) \/
  (exists p d,
     (flexkit.GetData (sample.server 200 sample.member_body)
        (Unmarshal1 := sample.Unmarshal_memberDataResponse)
        (Some 1%positive) sample.state).1 = Ok (Some p, None) /\
     heap sample.state !! p = None /\
     heap (flexkit.GetData (sample.server 200 sample.member_body)
             (Unmarshal1 := sample.Unmarshal_memberDataResponse)
             (Some 1%positive) sample.state).2
       = <[p := flexkit.OMemberData d]> (heap sample.state) /\
     flexkit.MemberData.ShippingOptions d = "").
Proof.
  exact (GetData_outcomes (sample.server 200 sample.member_body)
           (Unmarshal0 := sample.Unmarshal_memberDataResponse)
           sample.state 1%positive sample.member eq_refl).
Defined.

(** ** [CreateSubscription] *)

(** When the POST that [CreateSubscription] makes to [/api/subscriptions]
    (its body is the encoding of the request with [SubscriptionFor] set to
    [space]) is answered with a status in 200..299 and a body that decodes
    to a token [t], [CreateSubscription] returns a nil error and a pointer
    to a new [Member] that holds the public key of the request and [t]. *)
Theorem CreateSubscription_returns_Member
    world `{!Unmarshal flexkit.tokenResponse.t}
    (request : flexkit.SubscriptionRequest.t) (s : State flexkit.object)
    body status data t :
  json_Marshal (flexkit.SubscriptionRequest.set_SubscriptionFor "space" request)
    = inr body ->
  world (wire s) ({| Timeout := 30 * Second |},
                  jsonRequest "POST" "https://plasso.com/api/subscriptions" body)
    = inr {| StatusCode := status; ReadAll := inr data |} ->
  200 <= status <= 299 ->
  json_Unmarshal data = inr (flexkit.tokenResponse.mk t) ->
  exists p,
    (flexkit.CreateSubscription world request s).1 = Ok (Some p, None) /\
    heap s !! p = None /\
    heap (flexkit.CreateSubscription world request s).2 =
      <[p := flexkit.OMember
               (flexkit.Member.mk (flexkit.SubscriptionRequest.PublicKey request) t)]>
        (heap s).
Proof.
  intros HM Hw Hst Hu. unfold flexkit.CreateSubscription.
  erewrite bind_run; cycle 1.
  { apply flexkit_sendRequest_run; [exact HM | reflexivity..]. }
  change (world (wire s) _)
    with (world (wire s)
            ({| Timeout := 30 * Second |},
             jsonRequest "POST" "https://plasso.com/api/subscriptions" body)).
  rewrite Hw. simpl.
  apply status_test_299 in Hst. rewrite Hst. simpl. rewrite Hu.
  exists (fresh (dom (heap s))). repeat split.
  apply not_elem_of_dom, is_fresh.
Qed.

(** A server that answers 201 with a token when the body it is sent carries
    [subscription_for] set to [space], and 400 otherwise. *)
Lemma CreateSubscription_returns_Member_sample :
  exists p,
    (flexkit.CreateSubscription sample.subscription_server
       (Unmarshal0 := sample.Unmarshal_tokenResponse)
       sample.subscription sample.state).1 = Ok (Some p, None) /\
    heap sample.state !! p = None /\
    heap (flexkit.CreateSubscription sample.subscription_server
            (Unmarshal0 := sample.Unmarshal_tokenResponse)
            sample.subscription sample.state).2 =
      <[p := flexkit.OMember (flexkit.Member.mk "pk_1" "tok_1")]> (heap sample.state).
Proof.
  eapply (CreateSubscription_returns_Member sample.subscription_server
            (Unmarshal0 := sample.Unmarshal_tokenResponse)
            sample.subscription sample.state _ 201 sample.token_body "tok_1").
  - reflexivity.
  - reflexivity.
  - lia.
  - reflexivity.
Defined.

(** ** [sendRequest] on a request that cannot be sent *)

(** When the request does not encode, or [http.NewRequest] refuses the
    method or the URL, [sendRequest] returns that error with a nil body and
    sends nothing. *)
Theorem sendRequest_rejects_without_sending
    world {T} `{!Reflect T} kind path (request : T) (s : State flexkit.object) err :
  json_Marshal request = inl err \/
  (exists body, json_Marshal request = inr body /\
                http_NewRequest kind (flexkit.domain +:+ path) body = inl err) ->
  flexkit.sendRequest world kind path request s = (Ok (None, Some err), s).
Proof.
  intros [HM | (body & HM & HN)]; unfold flexkit.sendRequest; rewrite HM;
    [reflexivity|].
  rewrite HN. reflexivity.
Qed.

(** A channel is handed over as the request. *)
Lemma sendRequest_rejects_without_sending_sample :
  flexkit.sendRequest (sample.server 200 "{}") "POST" "/api/payments"
    (VUnsupported "chan int") sample.state =
    (Ok (None, Some (errors_New "json: unsupported type: chan int")), sample.state).
Proof.
  apply (sendRequest_rejects_without_sending (sample.server 200 "{}") "POST"
           "/api/payments" (VUnsupported "chan int") sample.state
           (errors_New "json: unsupported type: chan int")).
  left. reflexivity.
Defined.

(** ** [New] of package plasso *)

Section plasso_New.
Context (world : World) `{!Unmarshal plasso.gqlResponse.t}.

(** [New], step by step.  The status code of the answer is not read. *)
Lemma plasso_New_run token (s : State plasso.plasso.t) :
  let sent := mkState (heap s) (wire s ++ [newExchange token]) in
  plasso.New world token s =
    match world (wire s) (newExchange token) with
    | inl err => (Ok (None, Some err), sent)
    | inr res =>
        match ReadAll res with
        | inl err => (Ok (None, Some err), sent)
        | inr data =>
            match json_Unmarshal data with
            | inl err => (Ok (None, Some err), sent)
            | inr r =>
                let m := plasso.gqlResponse.Data.Member (plasso.gqlResponse.Data r) in
                (Ok (Some (fresh (dom (heap s))), None),
                 mkState (<[fresh (dom (heap s)) :=
                              plasso.plasso.mk true token (plasso.gqlResponse.Member.Id m)
                                (plasso.gqlResponse.Member.PlanId m)
                                (plasso.space.mk
                                   (plasso.gqlResponse.Space.LogoutUrl
                                      (plasso.gqlResponse.Member.Space m)))]> (heap s))
                         (wire s ++ [newExchange token]))
            end
        end
    end.
Proof.
  intros sent. unfold plasso.New. rewrite plasso_gqlQuery_encodes.
  rewrite http_NewRequest_valid by reflexivity.
  run_monad.
  match goal with
  | |- context [world (wire s) ?e] => change e with (newExchange token)
  end.
  destruct (world (wire s) (newExchange token)) as [err|res]; [reflexivity|].
  destruct (ReadAll res) as [err|data]; [reflexivity|].
  destruct (json_Unmarshal data) as [err|r]; reflexivity.
Qed.

End plasso_New.

(** [New] always performs exactly one exchange: a POST to
    [https://api.plasso.com] through a client with a one second timeout,
    whose body is the object with the one member [query]; the query is the
    template with the token put between the two double quotes as it is, with
    no escaping. *)
Theorem New_splices_token
    world `{!Unmarshal plasso.gqlResponse.t} token (s : State plasso.plasso.t) :
  wire (plasso.New world token s).2 = wire s ++ [newExchange token] /\
  posts_json_to "https://api.plasso.com" (newExchange token) /\
  field_of "query" (Body (newExchange token).2) =
    Some (JString ("{member(token:" +:+ dq +:+ token +:+ dq
                     +:+ "){id,planId,space{logoutUrl}}}")).
Proof.
  split; [|split; [repeat split | reflexivity]].
  rewrite plasso_New_run.
  destruct (world (wire s) (newExchange token)) as [err|res]; [reflexivity|].
  destruct (ReadAll res) as [err|data]; [reflexivity|].
  destruct (json_Unmarshal data) as [err|r]; reflexivity.
Qed.

(** When the answer is read and its body decodes, [New] returns a nil error
    and a pointer to a new [plasso] that is logged in and holds the token it
    was given and the id, plan id and logout URL of the answer; this holds
    for every status code. *)
Theorem New_returns_plasso
    world `{!Unmarshal plasso.gqlResponse.t} token (s : State plasso.plasso.t)
    status data (r : plasso.gqlResponse.t) :
  world (wire s) (newExchange token) = inr {| StatusCode := status; ReadAll := inr data |} ->
  json_Unmarshal data = inr r ->
  let m := plasso.gqlResponse.Data.Member (plasso.gqlResponse.Data r) in
  exists p,
    (plasso.New world token s).1 = Ok (Some p, None) /\
    heap s !! p = None /\
    heap (plasso.New world token s).2 !! p =
      Some {| plasso.plasso.LoggedIn := true;
              plasso.plasso.Token := token;
              plasso.plasso.Id := plasso.gqlResponse.Member.Id m;
              plasso.plasso.PlanId := plasso.gqlResponse.Member.PlanId m;
              plasso.plasso.Space :=
                plasso.space.mk (plasso.gqlResponse.Space.LogoutUrl
                                   (plasso.gqlResponse.Member.Space m)) |}.
Proof.
  intros Hw Hu m. rewrite plasso_New_run, Hw. simpl. rewrite Hu.
  exists (fresh (dom (heap s))). simpl. split; [reflexivity|].
  split; [apply not_elem_of_dom, is_fresh | apply lookup_insert_eq].
Qed.

(** A server error whose body is an empty JSON object. *)
Lemma New_returns_plasso_sample :
  exists p,
    (plasso.New (sample.server 500 "{}") (Unmarshal0 := sample.Unmarshal_gqlResponse)
       "tok_0" (mkState ∅ [])).1 = Ok (Some p, None) /\
    (∅ : gmap loc plasso.plasso.t) !! p = None /\
    heap (plasso.New (sample.server 500 "{}") (Unmarshal0 := sample.Unmarshal_gqlResponse)
            "tok_0" (mkState ∅ [])).2 !! p =
      Some {| plasso.plasso.LoggedIn := true;
              plasso.plasso.Token := "tok_0";
              plasso.plasso.Id := "";
              plasso.plasso.PlanId := 0;
              plasso.plasso.Space := plasso.space.mk "" |}.
Proof.
  exact (New_returns_plasso (sample.server 500 "{}")
           (Unmarshal0 := sample.Unmarshal_gqlResponse) "tok_0" (mkState ∅ []) 500 "{}"
           (plasso.gqlResponse.mk (plasso.gqlResponse.Data.mk
              (plasso.gqlResponse.Member.mk "" 0 (plasso.gqlResponse.Space.mk "" ""))))
           eq_refl eq_refl).
Defined.

(** [New] hands on, unchanged, the error of the transport, of reading the
    body and of the decoder; in each case it returns a nil pointer and
    allocates nothing. *)
Theorem New_propagates_errors
    world `{!Unmarshal plasso.gqlResponse.t} token (s : State plasso.plasso.t) err :
  world (wire s) (newExchange token) = inl err \/
  (exists res, world (wire s) (newExchange token) = inr res /\ ReadAll res = inl err) \/
  (exists res data,
     world (wire s) (newExchange token) = inr res /\ ReadAll res = inr data /\
     json_Unmarshal (T := plasso.gqlResponse.t) data = inl err) ->
  plasso.New world token s =
    (Ok (None, Some err), mkState (heap s) (wire s ++ [newExchange token])).
Proof.
  intros [Hw | [(res & Hw & Hr) | (res & data & Hw & Hr & Hu)]];
    rewrite plasso_New_run, Hw; [reflexivity | |].
  - rewrite Hr. reflexivity.
  - rewrite Hr, Hu. reflexivity.
Qed.

(** The body of the answer is not JSON. *)
Lemma New_propagates_errors_sample :
  plasso.New (sample.server 200 "<html>") (Unmarshal0 := sample.Unmarshal_gqlResponse)
    "tok_0" (mkState ∅ []) =
    (Ok (None, Some sample.not_canned), mkState ∅ [newExchange "tok_0"]).
Proof.
  apply (New_propagates_errors (sample.server 200 "<html>")
           (Unmarshal0 := sample.Unmarshal_gqlResponse) "tok_0" (mkState ∅ [])
           sample.not_canned).
  right. right. exists {| StatusCode := 200; ReadAll := inr "<html>" |}, "<html>".
  split; [reflexivity|]. split; reflexivity.
Defined.

(** ** A session: [Login], then the methods of the member it returns *)

(** When [Login] returns a member, the token that the decoder read from the
    answer is the one that [GetData], [Logout] and [Delete] on that member
    send next, and [Logout] sends it with the public key that was given to
    [Login]. *)
Theorem Login_token_is_used
    world `{!Unmarshal flexkit.tokenResponse.t} `{!Unmarshal flexkit.memberDataResponse.t}
    (r : flexkit.LoginRequest.t) (s : State flexkit.object) p :
  (flexkit.Login world r s).1 = Ok (Some p, None) ->
  exists res data t,
    world (wire s) (loginExchange r) = inr res /\ ReadAll res = inr data /\
    json_Unmarshal data = inr (flexkit.tokenResponse.mk t) /\
    let m := flexkit.Member.mk (flexkit.LoginRequest.PublicKey r) t in
    let s' := (flexkit.Login world r s).2 in
    wire (flexkit.GetData world (Some p) s').2
      = wire s ++ [loginExchange r; getMemberExchange m] /\
    wire (flexkit.Logout world (Some p) s').2
      = wire s ++ [loginExchange r; logoutExchange m] /\
    wire (flexkit.Delete world (Some p) s').2
      = wire s ++ [loginExchange r; deleteExchange m].
Proof.
  rewrite flexkit_Login_run.
  destruct (world (wire s) (loginExchange r)) as [err|res] eqn:Hw; [discriminate|].
  destruct (ReadAll res) as [err|data] eqn:Hr; [discriminate|].
  destruct ((StatusCode res <? 200) || (StatusCode res >? 299)); [discriminate|].
  destruct (json_Unmarshal data) as [err|[t]] eqn:Hu; [discriminate|].
  intros Hp. simpl in Hp. injection Hp as <-.
  exists res, data, t. split; [reflexivity|]. split; [exact Hr|]. split; [exact Hu|].
  intros m s'. subst s'. cbn [snd].
  repeat split.
  - erewrite flexkit_GetData_wire by (cbn [heap]; apply lookup_insert_eq).
    cbn [wire]. rewrite <- app_assoc. reflexivity.
  - erewrite flexkit_Logout_wire by (cbn [heap]; apply lookup_insert_eq).
    cbn [wire]. rewrite <- app_assoc. reflexivity.
  - erewrite flexkit_Delete_wire by (cbn [heap]; apply lookup_insert_eq).
    cbn [wire]. rewrite <- app_assoc. reflexivity.
Qed.

Lemma Login_token_is_used_sample :
  exists res data t,
    sample.server 200 sample.token_body [] (loginExchange sample.login) = inr res /\
    ReadAll res = inr data /\
    sample.Unmarshal_tokenResponse data = inr (flexkit.tokenResponse.mk t) /\
    let m := flexkit.Member.mk "pk_1" t in
    let s' := (flexkit.Login (sample.server 200 sample.token_body)
                 (Unmarshal0 := sample.Unmarshal_tokenResponse)
                 sample.login sample.state).2 in
    wire (flexkit.GetData (sample.server 200 sample.token_body)
            (Unmarshal1 := sample.Unmarshal_memberDataResponse) (Some 2%positive) s').2
      = [loginExchange sample.login; getMemberExchange m] /\
    wire (flexkit.Logout (sample.server 200 sample.token_body) (Some 2%positive) s').2
      = [loginExchange sample.login; logoutExchange m] /\
    wire (flexkit.Delete (sample.server 200 sample.token_body) (Some 2%positive) s').2
      = [loginExchange sample.login; deleteExchange m].
Proof.
  exact (Login_token_is_used (sample.server 200 sample.token_body)
           (Unmarshal0 := sample.Unmarshal_tokenResponse)
           (Unmarshal1 := sample.Unmarshal_memberDataResponse)
           sample.login sample.state 2%positive eq_refl).
Defined.

(** ** The two revisions of [Login] on status 300 *)

(** When the login request of each revision is answered with status 300
    and a body that decodes to a token, [Login] of flexkit.go returns no
    member and an error that names the status, while [Login] of the earlier
    revision returns a member and a nil error. *)
Theorem Login_on_status_300
    world `{!Unmarshal flexkit.tokenResponse.t}
    (r : flexkit.LoginRequest.t) (s : State flexkit.object) (sv : State variant.object)
    data t :
  world (wire s) (loginExchange r) = inr {| StatusCode := 300; ReadAll := inr data |} ->
  world (wire sv) (variant_loginExchange r)
    = inr {| StatusCode := 300; ReadAll := inr data |} ->
  json_Unmarshal data = inr (flexkit.tokenResponse.mk t) ->
  (flexkit.Login world r s).1 =
    Ok (None,
        Some (errors_New ("POST 300 https://plasso.com/api/service/login " +:+ data))) /\
  exists p,
    (variant.Login world r sv).1 = Ok (Some p, None) /\
    heap (variant.Login world r sv).2 !! p =
      Some (variant.OMember (variant.Member.mk (variant.LoginRequest.PublicKey r) t)).
Proof.
  intros Hw Hwv Hu. split.
  - rewrite flexkit_Login_run, Hw. reflexivity.
  - unfold variant.Login.
    erewrite bind_run; cycle 1.
    { apply variant_sendRequest_run; [apply LoginRequest_encodes | reflexivity..]. }
    change (world (wire sv) _) with (world (wire sv) (variant_loginExchange r)).
    rewrite Hwv. simpl. rewrite Hu.
    eexists. split; [reflexivity|].
    unfold mbind, M_bind, new. simpl. apply lookup_insert_eq.
Qed.

Lemma Login_on_status_300_sample :
  (flexkit.Login (sample.server 300 sample.token_body)
     (Unmarshal0 := sample.Unmarshal_tokenResponse) sample.login sample.state).1 =
    Ok (None,
        Some (errors_New ("POST 300 https://plasso.com/api/service/login "
                            +:+ sample.token_body))) /\
  exists p,
    (variant.Login (sample.server 300 sample.token_body)
       (Unmarshal0 := sample.Unmarshal_tokenResponse) sample.login sample.state_variant).1
      = Ok (Some p, None) /\
    heap (variant.Login (sample.server 300 sample.token_body)
            (Unmarshal0 := sample.Unmarshal_tokenResponse) sample.login
            sample.state_variant).2 !! p =
      Some (variant.OMember (variant.Member.mk "pk_1" "tok_1")).
Proof.
  apply (Login_on_status_300 (sample.server 300 sample.token_body)
           (Unmarshal0 := sample.Unmarshal_tokenResponse)
           sample.login sample.state sample.state_variant sample.token_body "tok_1").
  - reflexivity.
  - reflexivity.
  - reflexivity.
Defined.

(** ** The request of [GetData] *)

(** [GetData] on a live member posts the fixed query [getMemberQuery]
    together with one variable, [token], set to the member's token; the
    public key of the member is not sent. *)
Theorem GetData_request
    world `{!Unmarshal flexkit.memberDataResponse.t}
    (s : State flexkit.object) l m :
  heap s !! l = Some (flexkit.OMember m) ->
  exists c req,
    wire (flexkit.GetData world (Some l) s).2 = wire s ++ [(c, req)] /\
    Body req = JObject [("query", JString flexkit.getMemberQuery);
                        ("variables",
                         JObject [("token", JString (flexkit.Member.Token m))])].
Proof.
  intros Hl. eexists _, _. split; [apply (flexkit_GetData_wire world s l m Hl)|].
  reflexivity.
Qed.

Lemma GetData_request_sample :
  exists c req,
    wire (flexkit.GetData (sample.server 200 sample.member_body)
            (Unmarshal1 := sample.Unmarshal_memberDataResponse)
            (Some 1%positive) sample.state).2 = [(c, req)] /\
    Body req = JObject [("query", JString flexkit.getMemberQuery);
                        ("variables", JObject [("token", JString "tok_0")])].
Proof.
  exact (GetData_request (sample.server 200 sample.member_body)
           (Unmarshal0 := sample.Unmarshal_memberDataResponse)
           sample.state 1%positive sample.member eq_refl).
Defined.
